(** * Campaign Studio front end: a shallow embedding and its properties

    The development follows the TypeScript sources of the dashboard client:

    - [frontend/src/context/ApiContext.tsx]: the [ApiProvider] component
      (auth token state, the shared axios instance, the two effects);
    - the login and signup pages ([LoginPage.handleSubmit],
      [SignupPage.handleSubmit]);
    - [frontend/src/app/page.tsx]: [DashboardPage] with its helpers
      ([resolveAssetUrl], [formatTime]), derived data ([stats], [findImage],
      [findImagesByPlatform]) and event handlers.

    Conventions.  A JavaScript string is a [string]; a character stands for
    one code unit in the range 0..255.  A JavaScript number that the code
    only uses as an integer (ids, sizes, counts) is a [Z]; the two agree up
    to 2^53, beyond which a JavaScript number rounds.  A value of type
    [T | null | undefined] is an [option T].  React state is threaded
    explicitly; what a handler does to the outside world (requests, toasts,
    navigation) is collected in a log of events, and what the outside world
    answers (the server, the confirm dialog) is read from an environment. *)

From Stdlib Require Import ZArith Ascii String List DecimalString Sorted.
From Stdlib Require QArith DecimalPos.
From stdpp Require Import base decidable option list strings gmap fin_maps.

Local Open Scope string_scope.
Local Open Scope Z_scope.

(** ** JavaScript primitives used by the sources *)

Module Js.

(** [if (v)] on a [string | null]: [null] and the empty string are falsy. *)
Definition truthy (v : option string) : bool :=
  match v with
  | Some s => bool_decide (s ≠ "")
  | None => false
  end.

(** [if (s)] on a string. *)
Definition nonEmpty (s : string) : bool := bool_decide (s ≠ "").

(** [a || b] on strings that may be absent. *)
Definition or_else (v : option string) (d : string) : string :=
  match v with
  | Some s => if bool_decide (s ≠ "") then s else d
  | None => d
  end.

(** Interpolation [`${v}`] of a [string | undefined]. *)
Definition template (v : option string) : string :=
  match v with
  | Some s => s
  | None => "undefined"
  end.

(** [s.startsWith(p)]. *)
Definition startsWith (s p : string) : bool := String.prefix p s.

(** WhiteSpace and LineTerminator code units below 256: TAB, LF, VT, FF,
    CR, SPACE and NBSP. *)
Definition isWhiteSpace (c : ascii) : bool :=
  let n := N_of_ascii c in
  ((9 <=? n) && (n <=? 13) || (n =? 32) || (n =? 160))%N.

Fixpoint trimStart (s : string) : string :=
  match s with
  | EmptyString => EmptyString
  | String c s' => if isWhiteSpace c then trimStart s' else s
  end.

Fixpoint trimEnd (s : string) : string :=
  match s with
  | EmptyString => EmptyString
  | String c s' =>
      match trimEnd s' with
      | EmptyString => if isWhiteSpace c then EmptyString else String c EmptyString
      | r => String c r
      end
  end.

(** [s.trim()]. *)
Definition trim (s : string) : string := trimEnd (trimStart s).

(** [n.toString()] for an integer-valued number: its decimal digits.  This
    is what JavaScript prints below 1e21; from there on it prints exponent
    notation, which is not modelled. *)
Definition toString (n : Z) : string := NilZero.string_of_int (Z.to_int n).

(** [b.toString()]. *)
Definition boolToString (b : bool) : string := if b then "true" else "false".

(** Value of a digit in a radix, [None] when the character is no digit of
    that radix. *)
Definition digitValue (radix : Z) (c : ascii) : option Z :=
  let n := Z.of_N (N_of_ascii c) in
  let v :=
    if (48 <=? n) && (n <=? 57) then Some (n - 48)
    else if (97 <=? n) && (n <=? 122) then Some (n - 87)
    else if (65 <=? n) && (n <=? 90) then Some (n - 55)
    else None in
  match v with
  | Some d => if d <? radix then Some d else None
  | None => None
  end.

(** Reads the longest prefix of digits; [acc] is [None] until a digit has
    been read. *)
Fixpoint readDigits (radix : Z) (acc : option Z) (s : string) : option Z :=
  match s with
  | EmptyString => acc
  | String c s' =>
      match digitValue radix c with
      | Some d => readDigits radix (Some (default 0 acc * radix + d)) s'
      | None => acc
      end
  end.

(** [parseInt(s)] with no radix argument; [None] is NaN.  Leading white
    space is skipped, one sign is read, a [0x]/[0X] prefix selects radix 16,
    and parsing stops at the first character that is no digit.  The value
    is the exact integer; JavaScript rounds it to a double, which differs
    from 2^53 on. *)
Definition parseInt (s : string) : option Z :=
  let s1 := trimStart s in
  let '(sign, s2) :=
    match s1 with
    | String "-" r => (-1, r)
    | String "+" r => (1, r)
    | _ => (1, s1)
    end in
  let '(radix, s3) :=
    match s2 with
    | String "0" (String "x" r) => (16, r)
    | String "0" (String "X" r) => (16, r)
    | _ => (10, s2)
    end in
  match readDigits radix None s3 with
  | Some n => Some (sign * n)
  | None => None
  end.

(** [parseInt(s) || d]: NaN and zero are falsy. *)
Definition parseIntOr (s : string) (d : Z) : Z :=
  match parseInt s with
  | Some 0 => d
  | Some n => n
  | None => d
  end.

(** Interpolation [`${v}`] of a [string | null]. *)
Definition templateNull (v : option string) : string :=
  match v with
  | Some s => s
  | None => "null"
  end.

(** [s.split(sep)] for a separator of one character: the pieces between
    the separators, at least one piece. *)
Fixpoint split (sep : ascii) (s : string) : list string :=
  match s with
  | EmptyString => [EmptyString]
  | String c s' =>
      if Ascii.eqb c sep then EmptyString :: split sep s'
      else match split sep s' with
           | piece :: rest => String c piece :: rest
           | [] => [String c EmptyString]
           end
  end.

(** [pieces.join(sep)]. *)
Fixpoint join (sep : ascii) (pieces : list string) : string :=
  match pieces with
  | [] => EmptyString
  | [piece] => piece
  | piece :: rest => piece +:+ String sep (join sep rest)
  end.

(** [pieces.pop()]: the last piece, [None] (undefined) for an empty array. *)
Definition pop (pieces : list string) : option string := last pieces.

End Js.

(** ** HTTP requests and the axios client *)

Module Http.

Inductive Method := GET | POST | DELETE.

(** One multipart part: a text field or a file. *)
Record File := { name : string; size : Z; type : string }.

Inductive FormValue :=
| FText (s : string)
| FFile (f : File).

Inductive Json :=
| JNum (n : Z)
| JStr (s : string)
| JBool (b : bool).

(** Request payloads: an object literal sent as JSON, [URLSearchParams],
    [FormData] (both ordered, filled by [append]), or nothing. *)
Inductive Body :=
| NoBody
| JsonBody (fields : list (string * Json))
| UrlEncoded (params : list (string * string))
| Multipart (parts : list (string * FormValue)).

Record Request := {
  method : Method;
  baseURL : option string;
  url : string;
  headers : gmap string string;
  body : Body
}.

(** An axios instance: its [defaults.baseURL] and [defaults.headers.common]. *)
Record Axios := {
  defaults_baseURL : option string;
  defaults_headers_common : gmap string string
}.

(** The library-wide [axios.defaults]: no base URL, and [Accept] as the
    only common header.  Nothing in the sources changes them. *)
Definition axios : Axios :=
  {| defaults_baseURL := None;
     defaults_headers_common := {[ "Accept" := "application/json, text/plain, */*" ]} |}.

(** [axios.create({ baseURL })]: a fresh instance with its own copy of the
    defaults. *)
Definition create (base : option string) : Axios :=
  {| defaults_baseURL := base;
     defaults_headers_common := defaults_headers_common axios |}.

(** [instance.defaults.headers.common[k] = v] and [delete ...common[k]]. *)
Definition set_common (k v : string) (a : Axios) : Axios :=
  {| defaults_baseURL := defaults_baseURL a;
     defaults_headers_common := <[k := v]> (defaults_headers_common a) |}.

Definition delete_common (k : string) (a : Axios) : Axios :=
  {| defaults_baseURL := defaults_baseURL a;
     defaults_headers_common := delete k (defaults_headers_common a) |}.

(** The request an instance sends: the per-call headers are laid over the
    instance's common defaults. *)
Definition request (a : Axios) (m : Method) (u : string)
    (config_headers : gmap string string) (b : Body) : Request :=
  {| method := m;
     baseURL := defaults_baseURL a;
     url := u;
     headers := config_headers ∪ defaults_headers_common a;
     body := b |}.

(** What the server may answer: a response with data of type [A], or an
    error whose [response.data.detail] may be missing.  The detail is a
    text here; a backend that sends another shape there (a list of
    validation errors, say) is outside this type. *)
Inductive Result (A : Type) :=
| Ok (data : A)
| Err (detail : option string).
Arguments Ok {A} data.
Arguments Err {A} detail.

End Http.

(** ** ApiContext.tsx *)

Module ApiContext.
Import Http.

Definition TOKEN_STORAGE_KEY : string := "ai-campaign-token".

(** The provider together with the browser it runs in: [window] is [None]
    where [typeof window === 'undefined'], and otherwise holds the content
    of [window.localStorage]. *)
Record Provider := {
  authToken : option string;
  api : Axios;
  window : option (gmap string string)
}.

(** Effect 1 (deps [[]]): the token read from storage, if any; the result is
    the argument of the queued [setAuthToken]. *)
Definition hydrate_effect (w : option (gmap string string)) : option string :=
  match w with
  | None => None
  | Some localStorage =>
      let storedToken := localStorage !! TOKEN_STORAGE_KEY in
      if Js.truthy storedToken then storedToken else None
  end.

(** The [else] branch of effect 2: drop the header and the stored token. *)
Definition sync_clear (p : Provider) : Provider :=
  {| authToken := authToken p;
     api := delete_common "Authorization" (api p);
     window := delete TOKEN_STORAGE_KEY <$> window p |}.

(** Effect 2 (deps [[authToken, api]]): mirrors the token of the current
    render into the axios default headers and into storage.  The test
    [if (authToken)] is a truthiness test. *)
Definition sync_effect (p : Provider) : Provider :=
  match authToken p with
  | Some t =>
      if Js.truthy (Some t) then
        {| authToken := authToken p;
           api := set_common "Authorization" ("Bearer " +:+ t) (api p);
           window := <[TOKEN_STORAGE_KEY := t]> <$> window p |}
      else sync_clear p
  | None => sync_clear p
  end.

(** [setAuthToken(v)]: a state change re-renders the provider, and the sync
    effect runs again because its dependency changed; setting the same
    value does nothing.  The result is the state once the effects of that
    commit have run; what a descendant's effect sees inside the commit,
    before the sync effect, is the subject of [Reload] below. *)
Definition setAuthToken (v : option string) (p : Provider) : Provider :=
  if decide (authToken p = v) then p
  else sync_effect {| authToken := v; api := api p; window := window p |}.

Definition login (token : string) : Provider → Provider := setAuthToken (Some token).
Definition logout : Provider → Provider := setAuthToken None.

(** First mount in a browser state [w]: [useState(null)], [useMemo] creates
    the instance, then both effects of the first commit run in order, each
    seeing [authToken = null]; the update queued by the hydration effect is
    applied afterwards. *)
Definition mount (API_URL : option string) (w : option (gmap string string)) : Provider :=
  let p0 := {| authToken := None; api := create API_URL; window := w |} in
  let queued := hydrate_effect (window p0) in
  let p1 := sync_effect p0 in
  match queued with
  | Some storedToken => setAuthToken (Some storedToken) p1
  | None => p1
  end.

(** The token the provider treats as a login: a truthy [authToken]. *)
Definition credential (p : Provider) : option string :=
  if Js.truthy (authToken p) then authToken p else None.

(** The header and the stored token agree with the current token. *)
Definition synced (p : Provider) : Prop :=
  defaults_headers_common (api p) !! "Authorization"
    = (λ t, "Bearer " +:+ t) <$> credential p
  ∧ ∀ localStorage, window p = Some localStorage →
      localStorage !! TOKEN_STORAGE_KEY = credential p.

(** States of the provider that the component can be in between events,
    that is, once the effects of the last commit have run: a first mount in
    any browser state, then calls of [login] and [logout] by its consumers. *)
Inductive reachable (API_URL : option string) : Provider → Prop :=
| reach_mount w : reachable API_URL (mount API_URL w)
| reach_login t p : reachable API_URL p → reachable API_URL (login t p)
| reach_logout p : reachable API_URL p → reachable API_URL (logout p).

End ApiContext.

(** ** Login and signup pages *)

Module AuthPages.
Import Http.

(** Both pages declare their own constant. *)
Definition API_URL : string := "http://127.0.0.1:8000".

(** [SignupPage.handleSubmit]: [axios.post(`${API_URL}/users/`, { email, password })]. *)
Definition signup_request (email password : string) : Request :=
  request axios POST (API_URL +:+ "/users/") ∅
    (JsonBody [("email", JStr email); ("password", JStr password)]).

(** [LoginPage.handleSubmit]: the credentials as [URLSearchParams], posted
    with an explicit content type. *)
Definition login_request (email password : string) : Request :=
  request axios POST (API_URL +:+ "/token/")
    {[ "Content-Type" := "application/x-www-form-urlencoded" ]}
    (UrlEncoded [("username", email); ("password", password)]).

(** The rest of [LoginPage.handleSubmit]: a response without a truthy
    [access_token] raises, otherwise the token is handed to [login]. *)
Definition login_submit (response : Result (option string))
    (p : ApiContext.Provider) : ApiContext.Provider :=
  match response with
  | Ok token =>
      if Js.truthy token then
        match token with
        | Some t => ApiContext.login t p
        | None => p
        end
      else p
  | Err _ => p
  end.

(** The effect of both pages: a logged-in visitor is sent to the dashboard. *)
Definition redirect (authToken : option string) : option string :=
  if Js.truthy authToken then Some "/" else None.

(** States the provider reaches through the pages themselves: a first
    mount, a submit of the login form whatever the server answers, and the
    Logout button of the dashboard. *)
Inductive visited (base : option string) : ApiContext.Provider → Prop :=
| visit_mount w : visited base (ApiContext.mount base w)
| visit_login response p : visited base p → visited base (login_submit response p)
| visit_logout p : visited base p → visited base (ApiContext.logout p).

(** What a submit shows and does, in order. *)
Inductive Event :=
| Posted (r : Request)
| ToastLoading (msg : string)
| ToastSuccess (msg : string)
| ToastError (msg : string)
| ToastDismiss
| ConsoleError (msg : string)
| RouterPush (path : string)
| RouterReplace (path : string).

Record Outcome := {
  provider : ApiContext.Provider;
  isLoading : bool;
  events : list Event
}.


(** [SignupPage.handleSubmit] in full; it never touches the provider. *)
Definition SignupPage_handleSubmit (server : Request → Result unit)
    (email password : string) (p : ApiContext.Provider) : Outcome :=
  let req := signup_request email password in
  match server req with
  | Ok _ =>
      {| provider := p;
         isLoading := false;
         events := [ToastLoading "Creating your account..."; Posted req;
                    ToastDismiss; ToastSuccess "Account created! Please log in.";
                    RouterPush "/login"] |}
  | Err detail =>
      {| provider := p;
         isLoading := false;
         events := [ToastLoading "Creating your account..."; Posted req;
                    ConsoleError "Signup failed"; ToastDismiss;
                    ToastError (Js.or_else detail "Sign up failed. Please try again.")] |}
  end.

End AuthPages.

(** ** app/page.tsx: data *)

Module GeneratedText.
Record t := {
  id : Z;
  platform : string;
  caption : string;
  persuasiveness_score : option Z;
  clarity_score : option Z;
  feedback : option string
}.
End GeneratedText.

Module GeneratedImage.
Record t := {
  id : Z;
  platform : string;
  image_url : string;
  image_prompt : string;
  original_image_url : option string;
  variation_number : option Z;
  is_selected : option bool;
  tags : option (list string);
  collection : option string
}.
End GeneratedImage.

Module CampaignDetails.
Record t := {
  id : Z;
  product_name : string;
  product_url : string;
  created_at : string;
  texts : list GeneratedText.t;
  images : list GeneratedImage.t
}.
End CampaignDetails.

Module CampaignSummary.
Record t := {
  id : Z;
  product_name : string;
  product_url : string;
  created_at : string;
  preview_image_url : option string
}.
End CampaignSummary.

(** ** app/page.tsx: the dashboard *)

Module Dashboard.
Import Http.

(** The component state, one field per [useState]. *)
Record State := {
  campaigns : list CampaignSummary.t;
  activeCampaign : option CampaignDetails.t;
  isFetchingCampaign : bool;
  isGenerating : bool;
  url : string;
  productName : string;
  productImage : option File;
  enableABTesting : bool;
  numVariations : Z
}.

Definition initial : State :=
  {| campaigns := [];
     activeCampaign := None;
     isFetchingCampaign := false;
     isGenerating := false;
     url := "https://www.amazon.com/SAMSUNG-Unlocked-Smartphone-Charging-Expandable/dp/B0DLHNWHRF/";
     productName := "";
     productImage := None;
     enableABTesting := false;
     numVariations := 2 |}.

(** What a handler does to the outside world, in order. *)
Inductive Event :=
| Sent (r : Request)
| ToastLoading (msg : string)
| ToastSuccess (msg : string)
| ToastError (msg : string)
| ToastDismiss
| ConsoleError (msg : string)
| RouterPush (path : string).

(** What the outside world answers: the confirm dialog and the server,
    which may answer each request with data of the expected shape or fail. *)
Record Env := {
  confirm : string → bool;
  respond : Request → Result unit;
  respond_list : Request → Result (list CampaignSummary.t);
  respond_details : Request → Result CampaignDetails.t
}.

Record World := { ui : State; log : list Event }.

(** Handlers are state transformers over the component state and the log. *)
Definition M (A : Type) : Type := World → A * World.

Definition ret {A} (a : A) : M A := λ w, (a, w).
Definition bind {A B} (m : M A) (k : A → M B) : M B :=
  λ w, let '(a, w') := m w in k a w'.
Definition emit (e : Event) : M unit :=
  λ w, (tt, {| ui := ui w; log := log w ++ [e] |}).
Definition get : M State := λ w, (ui w, w).
Definition modify (f : State → State) : M unit :=
  λ w, (tt, {| ui := f (ui w); log := log w |}).

Declare Scope handler_scope.
Delimit Scope handler_scope with handler.
Notation "x <- m ;; k" := (bind m (λ x, k))
  (at level 100, m at next level, right associativity) : handler_scope.
Notation "m ;; k" := (bind m (λ _, k))
  (at level 100, right associativity) : handler_scope.
Local Open Scope handler_scope.

(** The [useState] setters. *)
Definition setCampaigns (f : list CampaignSummary.t → list CampaignSummary.t) : M unit :=
  modify (λ s,
    {| campaigns := f (campaigns s); activeCampaign := activeCampaign s;
       isFetchingCampaign := isFetchingCampaign s; isGenerating := isGenerating s;
       url := url s; productName := productName s; productImage := productImage s;
       enableABTesting := enableABTesting s; numVariations := numVariations s |}).

Definition setActiveCampaign (v : option CampaignDetails.t) : M unit :=
  modify (λ s,
    {| campaigns := campaigns s; activeCampaign := v;
       isFetchingCampaign := isFetchingCampaign s; isGenerating := isGenerating s;
       url := url s; productName := productName s; productImage := productImage s;
       enableABTesting := enableABTesting s; numVariations := numVariations s |}).

Definition setIsFetchingCampaign (v : bool) : M unit :=
  modify (λ s,
    {| campaigns := campaigns s; activeCampaign := activeCampaign s;
       isFetchingCampaign := v; isGenerating := isGenerating s;
       url := url s; productName := productName s; productImage := productImage s;
       enableABTesting := enableABTesting s; numVariations := numVariations s |}).

Definition setIsGenerating (v : bool) : M unit :=
  modify (λ s,
    {| campaigns := campaigns s; activeCampaign := activeCampaign s;
       isFetchingCampaign := isFetchingCampaign s; isGenerating := v;
       url := url s; productName := productName s; productImage := productImage s;
       enableABTesting := enableABTesting s; numVariations := numVariations s |}).

Definition setProductName (v : string) : M unit :=
  modify (λ s,
    {| campaigns := campaigns s; activeCampaign := activeCampaign s;
       isFetchingCampaign := isFetchingCampaign s; isGenerating := isGenerating s;
       url := url s; productName := v; productImage := productImage s;
       enableABTesting := enableABTesting s; numVariations := numVariations s |}).

Definition setProductImage (v : option File) : M unit :=
  modify (λ s,
    {| campaigns := campaigns s; activeCampaign := activeCampaign s;
       isFetchingCampaign := isFetchingCampaign s; isGenerating := isGenerating s;
       url := url s; productName := productName s; productImage := v;
       enableABTesting := enableABTesting s; numVariations := numVariations s |}).

Definition setEnableABTesting (v : bool) : M unit :=
  modify (λ s,
    {| campaigns := campaigns s; activeCampaign := activeCampaign s;
       isFetchingCampaign := isFetchingCampaign s; isGenerating := isGenerating s;
       url := url s; productName := productName s; productImage := productImage s;
       enableABTesting := v; numVariations := numVariations s |}).

Definition setNumVariations (v : Z) : M unit :=
  modify (λ s,
    {| campaigns := campaigns s; activeCampaign := activeCampaign s;
       isFetchingCampaign := isFetchingCampaign s; isGenerating := isGenerating s;
       url := url s; productName := productName s; productImage := productImage s;
       enableABTesting := enableABTesting s; numVariations := v |}).

(** The em dash shown for a date that does not parse. *)
Definition DASH : string := "—".

Section Helpers.
(** [process.env.NEXT_PUBLIC_API_URL], and the platform's date functions:
    [new Date(value).getTime()] ([None] is NaN) and
    [toLocaleTimeString] with the two-digit options. *)
Variable API_URL : option string.
Variable Date_getTime : string → option Z.
Variable toLocaleTimeString : Z → string.

Definition formatTime (value : option string) : string :=
  match value with
  | Some v =>
      if negb (Js.truthy (Some v)) then "No campaigns yet"
      else match Date_getTime v with
           | None => DASH
           | Some date => toLocaleTimeString date
           end
  | None => "No campaigns yet"
  end.

Definition resolveAssetUrl (path : option string) : string :=
  match path with
  | Some p =>
      if negb (Js.truthy (Some p)) then ""
      else if Js.startsWith p "http" then p
      else Js.template API_URL +:+ p
  | None => ""
  end.
End Helpers.

(** [stats], recomputed from [campaigns] and [activeCampaign]. *)
Record Stats := {
  totalCampaigns : nat;
  totalImages : nat;
  lastRun : option string
}.

Definition stats (s : State) : Stats :=
  {| totalCampaigns := length (campaigns s);
     totalImages :=
       match activeCampaign s with
       | Some c => length (CampaignDetails.images c)
       | None => 0%nat
       end;
     lastRun := CampaignSummary.created_at <$> head (campaigns s) |}.

(** [findImage(platform, variationNumber = 0)]: [Array.prototype.find]
    returns the first match; an omitted argument is [None]. *)
Definition findImage (s : State) (platform : string) (variationNumber : option Z)
    : option GeneratedImage.t :=
  let v := default 0 variationNumber in
  match activeCampaign s with
  | Some c =>
      List.find
        (λ img, bool_decide (GeneratedImage.platform img = platform)
                && (default 0 (GeneratedImage.variation_number img) =? v))
        (CampaignDetails.images c)
  | None => None
  end.

Definition findImagesByPlatform (s : State) (platform : string) : list GeneratedImage.t :=
  match activeCampaign s with
  | Some c =>
      List.filter (λ img, bool_decide (GeneratedImage.platform img = platform))
        (CampaignDetails.images c)
  | None => []
  end.

(** The A/B variation card: [isMain] and the text of its label. *)
Definition isMain (img : GeneratedImage.t) : bool :=
  default 0 (GeneratedImage.variation_number img) =? 0.

Definition variation_label (img : GeneratedImage.t) : string :=
  if isMain img then "Main"
  else "Variation " +:+
       match GeneratedImage.variation_number img with
       | Some n => Js.toString n
       | None => "null"
       end.

(** [FormData.append]. *)
Definition append (k : string) (v : FormValue) (fd : list (string * FormValue))
    : list (string * FormValue) :=
  fd ++ [(k, v)].

(** The multipart body [handleSubmit] builds from the state of its render. *)
Definition campaign_formData (s : State) : list (string * FormValue) :=
  let formData := [] in
  let formData := append "product_url" (FText (url s)) formData in
  let formData :=
    if Js.nonEmpty (Js.trim (productName s))
    then append "product_name" (FText (Js.trim (productName s))) formData
    else formData in
  let formData :=
    match productImage s with
    | Some image => append "product_image" (FFile image) formData
    | None => formData
    end in
  let formData :=
    append "enable_ab_testing" (FText (Js.boolToString (enableABTesting s))) formData in
  append "num_variations" (FText (Js.toString (numVariations s))) formData.

(** The file input as the change handler sees it: [event.target.files];
    assigning [value = ""] empties the selection. *)
Record FileInput := { files : list File }.

Definition productImage_onChange (target : FileInput) : M FileInput :=
  match head (files target) with
  | Some file =>
      if 10 * 1024 * 1024 <? size file then
        (emit (ToastError "Image size must be less than 10MB") ;;
         setProductImage None ;;
         ret {| files := [] |})
      else
        (setProductImage (Some file) ;;
         emit (ToastSuccess ("Image selected: " +:+ name file)) ;;
         ret target)
  | None => (setProductImage None ;; ret target)
  end.

Definition productName_onChange (value : string) : M unit := setProductName value.

Definition enableABTesting_onChange (checked : bool) : M unit :=
  setEnableABTesting checked.

Definition numVariations_onChange (value : string) : M unit :=
  setNumVariations (Js.parseIntOr value 2).

(** The number field, rendered only while A/B testing is enabled, with
    its [min], [max] and (controlled) [value] attributes. *)
Record NumberInput := { min : Z; max : Z; value : Z }.

Definition numVariations_input (s : State) : option NumberInput :=
  if enableABTesting s
  then Some {| min := 2; max := 3; value := numVariations s |}
  else None.

Section Handlers.
Variable env : Env.
(** The instance obtained from [useApi()]. *)
Variable api : Axios.

Definition fetchCampaigns : M unit :=
  let req := request api GET "/api/v1/campaigns/" ∅ NoBody in
  emit (Sent req) ;;
  match respond_list env req with
  | Ok data => setCampaigns (λ _, data)
  | Err _ =>
      (emit (ConsoleError "Failed to fetch campaigns") ;;
       emit (ToastError "Unable to load campaigns."))
  end.

Definition fetchCampaignDetails (campaignId : Z) : M unit :=
  setIsFetchingCampaign true ;;
  let req :=
    request api GET ("/api/v1/campaigns/" +:+ Js.toString campaignId) ∅ NoBody in
  emit (Sent req) ;;
  match respond_details env req with
  | Ok data => setActiveCampaign (Some data)
  | Err _ =>
      (emit (ConsoleError "Failed to fetch campaign details") ;;
       emit (ToastError "Unable to load campaign details."))
  end ;;
  setIsFetchingCampaign false.

Definition handleDeleteCampaign (campaignId : Z) : M bool :=
  s <- get ;;
  if negb (confirm env "Are you sure you want to delete this campaign?")
  then ret false
  else
    let req :=
      request api DELETE ("/campaigns/" +:+ Js.toString campaignId) ∅ NoBody in
    emit (Sent req) ;;
    match respond env req with
    | Ok _ =>
        (setCampaigns
           (List.filter (λ campaign, negb (CampaignSummary.id campaign =? campaignId))) ;;
         match activeCampaign s with
         | Some c =>
             if CampaignDetails.id c =? campaignId
             then setActiveCampaign None
             else ret tt
         | None => ret tt
         end ;;
         emit (ToastSuccess "Campaign deleted") ;;
         ret true)
    | Err detail =>
        (emit (ConsoleError "Failed to delete campaign") ;;
         emit (ToastError (Js.or_else detail "Unable to delete campaign.")) ;;
         ret false)
    end.

Definition handleDeleteActiveCampaign : M unit :=
  s <- get ;;
  match activeCampaign s with
  | None => ret tt
  | Some c =>
      (success <- handleDeleteCampaign (CampaignDetails.id c) ;;
       if success then emit (RouterPush "/") else ret tt)
  end.

(** The body of the regenerate request. *)
Definition regenerate_body (campaignId : Z) (platform : string) (variationNumber : Z)
    : list (string * Json) :=
  [("campaign_id", JNum campaignId);
   ("platform", JStr platform);
   ("variation_number", JNum variationNumber)].

(** [handleRegenerateImage(campaignId, platform, variationNumber = 0)];
    an omitted third argument is [None]. *)
Definition handleRegenerateImage (campaignId : Z) (platform : string)
    (variationNumber : option Z) : M unit :=
  let variationNumber := default 0 variationNumber in
  emit (ToastLoading ("Regenerating image for " +:+ platform +:+ "...")) ;;
  let req :=
    request api POST "/api/v1/assets/regenerate" ∅
      (JsonBody (regenerate_body campaignId platform variationNumber)) in
  emit (Sent req) ;;
  match respond env req with
  | Ok _ =>
      (emit ToastDismiss ;;
       emit (ToastSuccess "Image regenerated!") ;;
       fetchCampaignDetails campaignId)
  | Err detail =>
      (emit (ConsoleError "Regeneration failed") ;;
       emit (ToastError (Js.or_else detail "Failed to regenerate image.")))
  end.

(** [onClick] of the Regenerate button next to the main image, and of the
    one on an A/B variation card. *)
Definition mainImage_regenerate_onClick (c : CampaignDetails.t) (text : GeneratedText.t)
    : M unit :=
  handleRegenerateImage (CampaignDetails.id c) (GeneratedText.platform text) (Some 0).

Definition variation_regenerate_onClick (c : CampaignDetails.t) (text : GeneratedText.t)
    (img : GeneratedImage.t) : M unit :=
  handleRegenerateImage (CampaignDetails.id c) (GeneratedText.platform text)
    (Some (default 0 (GeneratedImage.variation_number img))).

Definition handleSelectABWinner (imageId : Z) (isSelected : bool) : M unit :=
  s <- get ;;
  let req :=
    request api POST "/api/v1/assets/ab-test/select" ∅
      (JsonBody [("image_id", JNum imageId); ("is_selected", JBool isSelected)]) in
  emit (Sent req) ;;
  match respond env req with
  | Ok _ =>
      (emit (ToastSuccess (if isSelected then "Image selected as winner!"
                           else "Selection removed")) ;;
       match activeCampaign s with
       | Some c => fetchCampaignDetails (CampaignDetails.id c)
       | None => ret tt
       end)
  | Err detail =>
      (emit (ConsoleError "Selection failed") ;;
       emit (ToastError (Js.or_else detail "Failed to update selection.")))
  end.

Definition handleSubmit : M unit :=
  s <- get ;;
  setIsGenerating true ;;
  emit (ToastLoading "Generating campaign... This may take a couple of minutes.") ;;
  let req :=
    request api POST "/api/v1/generate/campaign"
      {[ "Content-Type" := "multipart/form-data" ]}
      (Multipart (campaign_formData s)) in
  emit (Sent req) ;;
  match respond_details env req with
  | Ok data =>
      (emit ToastDismiss ;;
       emit (ToastSuccess "Campaign generated!") ;;
       setActiveCampaign (Some data) ;;
       fetchCampaigns)
  | Err detail =>
      (emit (ConsoleError "Generation failed") ;;
       emit ToastDismiss ;;
       emit (ToastError (Js.or_else detail "Generation failed. Please try again.")))
  end ;;
  setIsGenerating false.
End Handlers.

(** What on the page reaches the server through the shared instance: the
    load of the list once a token is there, a click on a campaign, the
    delete buttons, the regenerate buttons, the winner toggle, and the
    form's submit. *)
Inductive Interaction :=
| LoadCampaigns
| OpenCampaign (campaignId : Z)
| DeleteCampaign (campaignId : Z)
| DeleteActiveCampaign
| RegenerateImage (campaignId : Z) (platform : string) (variationNumber : option Z)
| SelectABWinner (imageId : Z) (isSelected : bool)
| Submit.

Definition handle (env : Env) (api : Axios) (i : Interaction) : M unit :=
  match i with
  | LoadCampaigns => fetchCampaigns env api
  | OpenCampaign campaignId => fetchCampaignDetails env api campaignId
  | DeleteCampaign campaignId => (handleDeleteCampaign env api campaignId ;; ret tt)
  | DeleteActiveCampaign => handleDeleteActiveCampaign env api
  | RegenerateImage campaignId platform variationNumber =>
      handleRegenerateImage env api campaignId platform variationNumber
  | SelectABWinner imageId isSelected => handleSelectABWinner env api imageId isSelected
  | Submit => handleSubmit env api
  end.

(** The requests among the events of a log. *)
Definition sent (l : list Event) : list Request :=
  omap (λ e, match e with Sent r => Some r | _ => None end) l.

(** The parts of a multipart body with a given field name. *)
Definition parts (k : string) (fd : list (string * FormValue)) : list FormValue :=
  snd <$> List.filter (λ kv, bool_decide (kv.1 = k)) fd.

Definition multipart_parts (k : string) (r : Request) : list FormValue :=
  match body r with
  | Multipart fd => parts k fd
  | _ => []
  end.

(** A property of every request on the log survives the handler. *)
Definition all_sent (P : Request → Prop) {A} (m : M A) : Prop :=
  ∀ w, Forall P (sent (log w)) → Forall P (sent (log (m w).2)).

(** Running a handler in a component state: the state it leaves, what it
    returns, and the requests it sends. *)
Definition state_after {A} (m : M A) (s : State) : State :=
  ui (m {| ui := s; log := [] |}).2.

Definition result_of {A} (m : M A) (s : State) : A :=
  (m {| ui := s; log := [] |}).1.

Definition requests_of {A} (m : M A) (s : State) : list Request :=
  sent (log (m {| ui := s; log := [] |}).2).

(** The create-campaign request: the first request of [handleSubmit]. *)
Definition submitted (env : Env) (api : Axios) (s : State) : option Request :=
  head (requests_of (handleSubmit env api) s).

(** *** The rest of the page *)

Definition setUrl (v : string) : M unit :=
  modify (λ s,
    {| campaigns := campaigns s; activeCampaign := activeCampaign s;
       isFetchingCampaign := isFetchingCampaign s; isGenerating := isGenerating s;
       url := v; productName := productName s; productImage := productImage s;
       enableABTesting := enableABTesting s; numVariations := numVariations s |}).

Definition url_onChange (value : string) : M unit := setUrl value.

(** The Remove button beside the selected file: clears the state and, when
    [document.getElementById] finds the input, its selection. *)
Definition productImage_remove_onClick (fileInput : option FileInput)
    : M (option FileInput) :=
  setProductImage None ;;
  ret ((λ _, {| files := [] |}) <$> fileInput).

(** The first effect of the page: without a token, [router.replace("/login")]. *)
Definition redirect (authToken : option string) : option string :=
  if negb (Js.truthy authToken) then Some "/login" else None.

(** The early return: without a token the page renders only a spinner. *)
Definition shows_spinner (authToken : option string) : bool :=
  negb (Js.truthy authToken).

(** The second effect of the page: with a token, load the list. *)
Definition load_effect (env : Env) (api : Axios) (authToken : option string) : M unit :=
  if Js.truthy authToken then fetchCampaigns env api else ret tt.

(** [scoreColor]: the score is any finite number, so a rational. *)
Definition scoreColor (score : option QArith_base.Q) : string :=
  match score with
  | None => "text-slate-200"
  | Some score =>
      if QArith_base.Qle_bool (QArith_base.inject_Z 8) score then "text-emerald-400"
      else if QArith_base.Qle_bool (QArith_base.inject_Z 5) score then "text-yellow-400"
      else "text-rose-400"
  end.

(** What [fetch] is asked for: a URL and the headers of its init object. *)
Record Fetch := { fetch_url : string; fetch_headers : gmap string string }.

(** The name under which [handleDownload] saves an image. *)
Definition download_filename (imageUrl : string) : string :=
  Js.or_else (Js.pop (Js.split "/" imageUrl)) "campaign-image.png".

Section Downloads.
Variable API_URL : option string.
(** Whether a fetch comes back with [response.ok]; a rejected fetch counts
    as not ok, both end in the [catch]. *)
Variable fetch_ok : Fetch → bool.

(** [handleDownload]: returns what was fetched and, when that worked, the
    [download] name of the link that is clicked. *)
Definition handleDownload (imageUrl : string) : M (Fetch * option string) :=
  let assetUrl := resolveAssetUrl API_URL (Some imageUrl) in
  let req := {| fetch_url := assetUrl; fetch_headers := ∅ |} in
  if fetch_ok req then
    (let filename := download_filename imageUrl in
     emit (ToastSuccess "Image downloaded successfully!") ;;
     ret (req, Some filename))
  else
    (emit (ConsoleError "Download failed") ;;
     emit (ToastError "Failed to download image. Please try again.") ;;
     ret (req, None)).

(** [handleBatchExport], with the [authToken] of the context. *)
Definition handleBatchExport (authToken : option string) (campaignId : Z)
    : M (Fetch * option string) :=
  s <- get ;;
  let req :=
    {| fetch_url :=
         Js.template API_URL +:+ "/api/v1/assets/export/" +:+ Js.toString campaignId;
       fetch_headers :=
         {[ "Authorization" := "Bearer " +:+ Js.templateNull authToken ]} |} in
  if fetch_ok req then
    (let download :=
       Js.or_else (CampaignDetails.product_name <$> activeCampaign s) "campaign"
       +:+ "_assets.zip" in
     emit (ToastSuccess "Assets exported successfully!") ;;
     ret (req, Some download))
  else
    (emit (ConsoleError "Export failed") ;;
     emit (ToastError "Failed to export assets. Please try again.") ;;
     ret (req, None)).

(** The A/B card builds the URL of the original photo by hand; the main
    image goes through [resolveAssetUrl].  Both only where the image has an
    [original_image_url]. *)
Definition card_originalUrl (img : GeneratedImage.t) : option string :=
  match GeneratedImage.original_image_url img with
  | Some original =>
      if Js.nonEmpty original then Some (Js.template API_URL +:+ original) else None
  | None => None
  end.

Definition main_originalUrl (img : GeneratedImage.t) : option string :=
  if Js.truthy (GeneratedImage.original_image_url img)
  then Some (resolveAssetUrl API_URL (GeneratedImage.original_image_url img))
  else None.
End Downloads.

(** The A/B card: [isSelected], and the click on its check mark. *)
Definition card_isSelected (img : GeneratedImage.t) : bool :=
  default false (GeneratedImage.is_selected img).

Definition card_select_onClick (env : Env) (api : Axios) (img : GeneratedImage.t) : M unit :=
  handleSelectABWinner env api (GeneratedImage.id img) (negb (card_isSelected img)).

(** [hasVariations]: the A/B panel of a platform tab is shown for more than
    one image. *)
Definition hasVariations (s : State) (platform : string) : bool :=
  (1 <? length (findImagesByPlatform s platform))%nat.

(** Edits of the create-campaign form. *)
Inductive FormEdit :=
| EditUrl (value : string)
| EditProductName (value : string)
| ChooseFile (target : FileInput)
| RemoveFile (fileInput : option FileInput)
| CheckABTesting (checked : bool)
| EditNumVariations (value : string).

Definition edit (e : FormEdit) : M unit :=
  match e with
  | EditUrl value => url_onChange value
  | EditProductName value => productName_onChange value
  | ChooseFile target => (productImage_onChange target ;; ret tt)
  | RemoveFile fileInput => (productImage_remove_onClick fileInput ;; ret tt)
  | CheckABTesting checked => enableABTesting_onChange checked
  | EditNumVariations value => numVariations_onChange value
  end.

(** Anything the user does on the page, each time with the answers the
    outside world gives at that moment. *)
Inductive Action :=
| Edit (e : FormEdit)
| Interact (env : Env) (i : Interaction).

Definition act (api : Axios) (a : Action) : M unit :=
  match a with
  | Edit e => edit e
  | Interact env i => handle env api i
  end.

Fixpoint session (api : Axios) (actions : list Action) : M unit :=
  match actions with
  | [] => ret tt
  | a :: rest => (act api a ;; session api rest)
  end.

(** The form part and the data part of the state. *)
Definition form (s : State) : string * string * option File * bool * Z :=
  (url s, productName s, productImage s, enableABTesting s, numVariations s).

Definition data (s : State) : list CampaignSummary.t * option CampaignDetails.t :=
  (campaigns s, activeCampaign s).

(** A handler leaves an aspect of the state as it was. *)
Definition keeps {X A} (f : State → X) (m : M A) : Prop :=
  ∀ w, f (ui (m w).2) = f (ui w).

End Dashboard.

(** ** A reload of the dashboard, commit by commit

    The provider's [mount] gives the state once all effects have run.  In
    between, React runs the effects of each commit bottom-up: those of the
    page, a descendant of the provider, before the provider's own.  The
    axios instance is one shared object, so an effect of the page sees the
    default headers as the provider's effects have left them so far.  The
    page's first effect only calls [router.replace] and sends nothing
    through the instance; it is [Dashboard.redirect] and has no part here. *)

Module Reload.
Import Http.

(** The first commit: everything has rendered with [authToken] null.  The
    page's load effect runs first (and without a token does nothing); then
    the provider's hydration effect queues [setAuthToken] with the stored
    token, and its sync effect runs for null.  The result is the provider
    after the commit and the queued token. *)
Definition first_commit (env : Dashboard.Env) (API_URL : option string)
    (w : option (gmap string string))
    : Dashboard.M (ApiContext.Provider * option string) :=
  let p0 :=
    {| ApiContext.authToken := None;
       ApiContext.api := create API_URL;
       ApiContext.window := w |} in
  Dashboard.bind
    (Dashboard.load_effect env (ApiContext.api p0) (ApiContext.authToken p0))
    (λ _, Dashboard.ret
            (ApiContext.sync_effect p0,
             ApiContext.hydrate_effect (ApiContext.window p0))).

(** The render that follows the queued update: the state holds the token,
    the instance and the storage are as the first commit left them. *)
Definition rerender (token : string) (p : ApiContext.Provider) : ApiContext.Provider :=
  {| ApiContext.authToken := Some token;
     ApiContext.api := ApiContext.api p;
     ApiContext.window := ApiContext.window p |}.

(** The second commit: the page's load effect, whose dependency
    [authToken] has changed, runs first, on the instance as it is; then
    the provider's sync effect runs for the token. *)
Definition second_commit (env : Dashboard.Env) (p : ApiContext.Provider)
    : Dashboard.M ApiContext.Provider :=
  Dashboard.bind
    (Dashboard.load_effect env (ApiContext.api p) (ApiContext.authToken p))
    (λ _, Dashboard.ret (ApiContext.sync_effect p)).

(** Opening the dashboard in a browser state [w]. *)
Definition reload (env : Dashboard.Env) (API_URL : option string)
    (w : option (gmap string string)) : Dashboard.M ApiContext.Provider :=
  Dashboard.bind (first_commit env API_URL w)
    (λ '(p1, queued),
       match queued with
       | Some token => second_commit env (rerender token p1)
       | None => Dashboard.ret p1
       end).

End Reload.

(** ** Concrete scenarios *)

Module Scenario.
Import Http Dashboard.

(** A user who confirms every dialog, and a server that rejects every
    request without detail. *)
Definition refusing : Env :=
  {| confirm := λ _, true;
     respond := λ _, Err None;
     respond_list := λ _, Err None;
     respond_details := λ _, Err None |}.

(** A server that accepts deletions. *)
Definition accepting : Env :=
  {| confirm := λ _, true;
     respond := λ _, Ok tt;
     respond_list := λ _, Ok [];
     respond_details := λ _, Err None |}.

(** The shared instance of a provider freshly logged in. *)
Definition api : Axios :=
  ApiContext.api (ApiContext.login "tok" (ApiContext.mount None (Some ∅))).

(** A/B testing switched on, 5 typed into the variation field, A/B testing
    switched off again. *)
Definition five_variations : State :=
  state_after (numVariations_onChange "5")
    (state_after (enableABTesting_onChange true) initial).

Definition five_variations_hidden : State :=
  state_after (enableABTesting_onChange false) five_variations.

Definition photo (bytes : Z) : File :=
  {| name := "widget.png"; size := bytes; type := "image/png" |}.

Definition summary (n : Z) (created : string) : CampaignSummary.t :=
  {| CampaignSummary.id := n;
     CampaignSummary.product_name := "Widget";
     CampaignSummary.product_url := "https://example.com/widget";
     CampaignSummary.created_at := created;
     CampaignSummary.preview_image_url := None |}.

Definition image (n : Z) (p : string) (v : option Z) : GeneratedImage.t :=
  {| GeneratedImage.id := n;
     GeneratedImage.platform := p;
     GeneratedImage.image_url := "/static/images/widget.png";
     GeneratedImage.image_prompt := "a widget";
     GeneratedImage.original_image_url := None;
     GeneratedImage.variation_number := v;
     GeneratedImage.is_selected := None;
     GeneratedImage.tags := None;
     GeneratedImage.collection := None |}.

Definition details (n : Z) (imgs : list GeneratedImage.t) : CampaignDetails.t :=
  {| CampaignDetails.id := n;
     CampaignDetails.product_name := "Widget";
     CampaignDetails.product_url := "https://example.com/widget";
     CampaignDetails.created_at := "2025-01-02T10:00:00";
     CampaignDetails.texts := [];
     CampaignDetails.images := imgs |}.

(** A dashboard showing campaigns 7 and 9, with 7 open. *)
Definition two_campaigns : State :=
  {| campaigns := [summary 9 "2025-01-03T09:00:00"; summary 7 "2025-01-02T10:00:00"];
     activeCampaign :=
       Some (details 7 [image 1 "Instagram" None; image 2 "Instagram" (Some 1)]);
     isFetchingCampaign := false;
     isGenerating := false;
     url := "https://example.com/widget";
     productName := "  Widget  ";
     productImage := None;
     enableABTesting := false;
     numVariations := 2 |}.

End Scenario.

(** * Properties *)

(** ** The provider keeps header and storage in step with the token *)

Section ProviderProps.
Import Http ApiContext.

Lemma truthy_Some (t : string) : Js.truthy (Some t) = true ↔ t ≠ "".
Proof. unfold Js.truthy. by rewrite bool_decide_eq_true. Qed.

Lemma truthy_Some_nonempty (t : string) : t ≠ "" → Js.truthy (Some t) = true.
Proof. apply truthy_Some. Qed.

Lemma truthy_empty : Js.truthy (Some "") = false.
Proof. reflexivity. Qed.

Lemma credential_Some (p : Provider) (t : string) :
  authToken p = Some t → t ≠ "" → credential p = Some t.
Proof.
  intros Ht Hne. unfold credential. by rewrite Ht, truthy_Some_nonempty.
Qed.

Lemma credential_None (p : Provider) :
  authToken p = None ∨ authToken p = Some "" → credential p = None.
Proof. unfold credential. by intros [-> | ->]. Qed.

Lemma sync_effect_authToken (p : Provider) :
  authToken (sync_effect p) = authToken p.
Proof.
  unfold sync_effect. destruct (authToken p) as [t|] eqn:E; [|done].
  by destruct (Js.truthy (Some t)).
Qed.

Lemma sync_effect_synced (p : Provider) : synced (sync_effect p).
Proof.
  unfold synced, credential. rewrite sync_effect_authToken.
  unfold sync_effect. destruct (authToken p) as [t|] eqn:E.
  - destruct (Js.truthy (Some t)) eqn:T; simpl.
    + split; [apply lookup_insert_eq|].
      intros ls Hw. destruct (window p); simplify_eq/=. apply lookup_insert_eq.
    + split; [apply lookup_delete_eq|].
      intros ls Hw. destruct (window p); simplify_eq/=. apply lookup_delete_eq.
  - simpl. split; [apply lookup_delete_eq|].
    intros ls Hw. destruct (window p); simplify_eq/=. apply lookup_delete_eq.
Qed.

Lemma setAuthToken_authToken (v : option string) (p : Provider) :
  authToken (setAuthToken v p) = v.
Proof.
  unfold setAuthToken. case_decide; [done|]. by rewrite sync_effect_authToken.
Qed.

Lemma setAuthToken_synced (v : option string) (p : Provider) :
  synced p → synced (setAuthToken v p).
Proof.
  intros H. unfold setAuthToken. case_decide; [done|]. apply sync_effect_synced.
Qed.

Lemma mount_synced (base : option string) (w : option (gmap string string)) :
  synced (mount base w).
Proof.
  unfold mount. destruct (hydrate_effect _).
  - apply setAuthToken_synced, sync_effect_synced.
  - apply sync_effect_synced.
Qed.

Lemma reachable_synced (base : option string) (p : Provider) :
  reachable base p → synced p.
Proof.
  induction 1; [apply mount_synced | by apply setAuthToken_synced ..].
Qed.

(** The browser does not come or go: effects only rewrite the storage. *)
Lemma sync_effect_window (p : Provider) :
  is_Some (window (sync_effect p)) ↔ is_Some (window p).
Proof.
  unfold sync_effect, sync_clear.
  destruct (authToken p) as [t|]; [destruct (Js.truthy (Some t))|];
    simpl; by rewrite fmap_is_Some.
Qed.

Lemma setAuthToken_window (v : option string) (p : Provider) :
  is_Some (window (setAuthToken v p)) ↔ is_Some (window p).
Proof.
  unfold setAuthToken. case_decide; [done|]. by rewrite sync_effect_window.
Qed.

(** What a fresh mount makes of the stored token. *)
Lemma mount_authToken (base : option string) (w : option (gmap string string)) :
  authToken (mount base w) = hydrate_effect w.
Proof.
  unfold mount. simpl. destruct (hydrate_effect w) as [t|] eqn:E.
  - apply setAuthToken_authToken.
  - by rewrite sync_effect_authToken.
Qed.

Lemma hydrate_effect_stored (ls : gmap string string) (t : string) :
  ls !! TOKEN_STORAGE_KEY = Some t → t ≠ "" → hydrate_effect (Some ls) = Some t.
Proof.
  intros H Hne. unfold hydrate_effect. by rewrite H, truthy_Some_nonempty.
Qed.

Lemma hydrate_effect_absent (ls : gmap string string) :
  ls !! TOKEN_STORAGE_KEY = None → hydrate_effect (Some ls) = None.
Proof. intros H. unfold hydrate_effect. by rewrite H. Qed.

(** The login page hands only truthy tokens to [login]. *)
Lemma login_submit_nonempty (response : Result (option string)) (p : Provider) :
  authToken p ≠ Some "" → authToken (AuthPages.login_submit response p) ≠ Some "".
Proof.
  intros Hp. unfold AuthPages.login_submit.
  destruct response as [[t|]|]; try done.
  destruct (Js.truthy (Some t)) eqn:E; [|done].
  unfold login. rewrite setAuthToken_authToken. apply truthy_Some in E. congruence.
Qed.

(** Requests of an instance take the default header unless the call
    overrides it. *)
Lemma request_header (a : Axios) (m : Method) (u : string)
    (cfg : gmap string string) (b : Body) (k : string) :
  cfg !! k = None →
  headers (request a m u cfg b) !! k = defaults_headers_common a !! k.
Proof. intros H. simpl. by rewrite lookup_union_r. Qed.

End ProviderProps.

Section HandlerLog.
Import Http ApiContext.

(** Requests sent by a handler keep a property of the requests logged so
    far when every step does. *)
Lemma all_sent_ret {A} (P : Request → Prop) (x : A) :
  Dashboard.all_sent P (Dashboard.ret x).
Proof. by intros w Hw. Qed.

Lemma all_sent_get (P : Request → Prop) : Dashboard.all_sent P Dashboard.get.
Proof. by intros w Hw. Qed.

Lemma all_sent_modify (P : Request → Prop) (f : Dashboard.State → Dashboard.State) :
  Dashboard.all_sent P (Dashboard.modify f).
Proof. by intros w Hw. Qed.

Lemma all_sent_emit (P : Request → Prop) (e : Dashboard.Event) :
  (∀ r, e = Dashboard.Sent r → P r) → Dashboard.all_sent P (Dashboard.emit e).
Proof.
  intros He w Hw. unfold Dashboard.emit, Dashboard.sent. simpl.
  rewrite omap_app. apply Forall_app. split; [done|].
  destruct e; simpl; auto.
Qed.

Lemma all_sent_bind {A B} (P : Request → Prop) (m : Dashboard.M A) (k : A → Dashboard.M B) :
  Dashboard.all_sent P m → (∀ x, Dashboard.all_sent P (k x)) →
  Dashboard.all_sent P (Dashboard.bind m k).
Proof.
  intros Hm Hk w Hw. unfold Dashboard.bind. specialize (Hm w Hw).
  destruct (m w) as [x w']. by apply Hk.
Qed.

Lemma all_sent_requests_of {A} (P : Request → Prop) (m : Dashboard.M A)
    (s : Dashboard.State) :
  Dashboard.all_sent P m → Forall P (Dashboard.requests_of m s).
Proof. intros Hm. apply Hm. constructor. Qed.

(** One step through a handler: [tac] proves the property of a request
    where one is sent. *)
Ltac all_sent_step tac :=
  first
    [ apply all_sent_ret | apply all_sent_get | apply all_sent_modify
    | apply all_sent_emit; intros ? [= <-]; tac
    | apply all_sent_emit; intros ?; discriminate
    | apply all_sent_bind; [|intros ?]
    | match goal with
      | |- Dashboard.all_sent _ (match ?x with _ => _ end) => destruct x
      | |- Dashboard.all_sent _ (if ?x then _ else _) => destruct x
      end ].

(** Every request a dashboard handler sends is a request of the shared
    instance whose own config leaves [Authorization] alone. *)
Lemma handle_requests_via_api (env : Dashboard.Env) (a : Axios)
    (i : Dashboard.Interaction) (s : Dashboard.State) :
  Forall (λ r, headers r !! "Authorization"
               = defaults_headers_common a !! "Authorization")
    (Dashboard.requests_of (Dashboard.handle env a i) s).
Proof.
  apply all_sent_requests_of.
  destruct i; simpl;
    unfold Dashboard.handleDeleteActiveCampaign, Dashboard.handleDeleteCampaign,
      Dashboard.handleRegenerateImage, Dashboard.handleSelectABWinner,
      Dashboard.handleSubmit, Dashboard.fetchCampaignDetails, Dashboard.fetchCampaigns,
      Dashboard.setCampaigns, Dashboard.setActiveCampaign, Dashboard.setIsGenerating,
      Dashboard.setIsFetchingCampaign;
    repeat all_sent_step ltac:(by apply request_header).
Qed.

End HandlerLog.

Section ProviderClaims.
Import Http ApiContext.

(** The empty token: [login ""] leaves a non-null [authToken], which the
    truthiness test of the sync effect treats as logged out, so a request of
    the shared instance then carries no [Authorization] header at all. *)
Lemma bearer_absent_for_empty_token :
  reachable None (login "" (mount None (Some ∅)))
  ∧ authToken (login "" (mount None (Some ∅))) = Some ""
  ∧ headers (request (api (login "" (mount None (Some ∅))))
               GET "/api/v1/campaigns/" ∅ NoBody) !! "Authorization"
    ≠ Some ("Bearer " +:+ "").
Proof.
  split; [apply reach_login, reach_mount|].
  split; [reflexivity|]. vm_compute. discriminate.
Qed.

(** Between events, once the effects of the last commit have run: when
    [authToken] is a non-empty string the default header [Authorization] of
    the shared instance is ['Bearer '] followed by the token, and so is the
    header of every request sent through the instance whose own config does
    not set it, in particular of every request of the dashboard's handlers;
    when [authToken] is null or empty the header is absent; the signup and
    login requests go through plain axios and carry no [Authorization]
    header. *)
Theorem api_requests_carry_bearer (base : option string) (p : Provider)
    (m : Method) (u : string) (cfg : gmap string string) (b : Body)
    (env : Dashboard.Env) (i : Dashboard.Interaction) (s : Dashboard.State) :
  reachable base p →
  cfg !! "Authorization" = None →
  (∀ t, authToken p = Some t → t ≠ "" →
     defaults_headers_common (api p) !! "Authorization" = Some ("Bearer " +:+ t)
     ∧ headers (request (api p) m u cfg b) !! "Authorization" = Some ("Bearer " +:+ t)
     ∧ Forall (λ r, headers r !! "Authorization" = Some ("Bearer " +:+ t))
         (Dashboard.requests_of (Dashboard.handle env (api p) i) s))
  ∧ (authToken p = None ∨ authToken p = Some "" →
     defaults_headers_common (api p) !! "Authorization" = None
     ∧ headers (request (api p) m u cfg b) !! "Authorization" = None
     ∧ Forall (λ r, headers r !! "Authorization" = None)
         (Dashboard.requests_of (Dashboard.handle env (api p) i) s))
  ∧ (∀ email password,
       headers (AuthPages.signup_request email password) !! "Authorization" = None
       ∧ headers (AuthPages.login_request email password) !! "Authorization" = None).
Proof.
  intros Hreach Hcfg. destruct (reachable_synced _ _ Hreach) as [Hhdr _].
  pose proof (handle_requests_via_api env (api p) i s) as Hall.
  rewrite (request_header _ m u cfg b _ Hcfg). split; [|split].
  - intros t Ht Hne. rewrite (credential_Some _ _ Ht Hne) in Hhdr.
    split; [done|]. split; [done|].
    eapply Forall_impl; [exact Hall|]. intros r Hr. by rewrite Hr.
  - intros Hno. rewrite (credential_None _ Hno) in Hhdr.
    split; [done|]. split; [done|].
    eapply Forall_impl; [exact Hall|]. intros r Hr. by rewrite Hr.
  - intros email password. split; reflexivity.
Qed.

Lemma api_requests_carry_bearer_witness :
  headers (request (api (login "tok" (mount None (Some ∅))))
             POST "/api/v1/assets/regenerate" ∅ NoBody) !! "Authorization"
  = Some "Bearer tok".
Proof.
  refine (proj1 (proj2 (proj1 (api_requests_carry_bearer None
            (login "tok" (mount None (Some ∅)))
            POST "/api/v1/assets/regenerate" ∅ NoBody
            Scenario.refusing Dashboard.Submit Dashboard.initial _ _) "tok" _ _))).
  - apply reach_login, reach_mount.
  - reflexivity.
  - reflexivity.
  - discriminate.
Defined.

(** C10, as stated, fails for the empty token: after [login ""] and the
    sync effect nothing is stored under the key, and a fresh mount yields
    [authToken] null instead of the token. *)
Lemma empty_token_not_persisted :
  window (login "" (mount None (Some ∅))) ≫= (.!! TOKEN_STORAGE_KEY) ≠ Some ""
  ∧ authToken (mount None (window (login "" (mount None (Some ∅))))) ≠ Some "".
Proof. split; vm_compute; discriminate. Qed.

(** C10 (amended): for every non-empty token [t], in a browser, after
    [login t] and the sync effect [t] is stored in localStorage under
    ['ai-campaign-token'] and a fresh mount of the provider on that storage
    hydrates [authToken] back to [t]; after [logout] the key is removed and
    a fresh mount yields [authToken] null. *)
Theorem token_persistence_roundtrip (base : option string) (p : Provider) (t : string) :
  reachable base p →
  is_Some (window p) →
  t ≠ "" →
  (∃ localStorage, window (login t p) = Some localStorage
     ∧ localStorage !! TOKEN_STORAGE_KEY = Some t)
  ∧ authToken (mount base (window (login t p))) = Some t
  ∧ (∃ localStorage, window (logout p) = Some localStorage
     ∧ localStorage !! TOKEN_STORAGE_KEY = None)
  ∧ authToken (mount base (window (logout p))) = None.
Proof.
  intros Hreach Hw Hne.
  assert (Hin : ∃ ls, window (login t p) = Some ls ∧ ls !! TOKEN_STORAGE_KEY = Some t).
  { destruct (proj2 (setAuthToken_window (Some t) p) Hw) as [ls Hls].
    exists ls. split; [done|].
    destruct (reachable_synced base (login t p)) as [_ Hst]; [by constructor|].
    rewrite (Hst ls Hls). apply credential_Some; [apply setAuthToken_authToken | done]. }
  assert (Hout : ∃ ls, window (logout p) = Some ls ∧ ls !! TOKEN_STORAGE_KEY = None).
  { destruct (proj2 (setAuthToken_window None p) Hw) as [ls Hls].
    exists ls. split; [done|].
    destruct (reachable_synced base (logout p)) as [_ Hst]; [by constructor|].
    rewrite (Hst ls Hls). apply credential_None. left. apply setAuthToken_authToken. }
  split; [done|]. split.
  - destruct Hin as (ls & -> & Hls). rewrite mount_authToken.
    by apply hydrate_effect_stored.
  - split; [done|]. destruct Hout as (ls & -> & Hls). rewrite mount_authToken.
    by apply hydrate_effect_absent.
Qed.

Lemma token_persistence_roundtrip_witness :
  authToken (mount None (window (login "tok" (mount None (Some ∅))))) = Some "tok"
  ∧ authToken (mount None (window (logout (login "tok" (mount None (Some ∅)))))) = None.
Proof.
  split.
  - refine (proj1 (proj2 (token_persistence_roundtrip None
              (mount None (Some ∅)) "tok" _ _ _))).
    + apply reach_mount.
    + vm_compute. eauto.
    + discriminate.
  - refine (proj2 (proj2 (proj2 (token_persistence_roundtrip None
              (login "tok" (mount None (Some ∅))) "tok" _ _ _)))).
    + apply reach_login, reach_mount.
    + vm_compute. eauto.
    + discriminate.
Defined.

End ProviderClaims.

Section ReloadClaims.
Import Http ApiContext.

(** C1: the code breaks the claim on a reload.  With a non-empty token in
    localStorage, the dashboard's load effect runs in the commit in which
    [authToken] has become that token, before the provider's sync effect:
    the one request it sends through the shared instance, the GET of the
    campaign list, carries no [Authorization] header although [authToken]
    is non-null; only afterwards does the instance get its ['Bearer ']
    header, and the provider ends in the state [mount] describes. *)
Theorem reload_request_without_bearer (env : Dashboard.Env) (base : option string)
    (ls : gmap string string) (t : string) (s : Dashboard.State) :
  ls !! TOKEN_STORAGE_KEY = Some t →
  t ≠ "" →
  ∃ p,
    authToken p = Some t
    ∧ Dashboard.requests_of (Reload.reload env base (Some ls)) s
      = Dashboard.requests_of (Reload.second_commit env p) s
    ∧ Dashboard.requests_of (Reload.reload env base (Some ls)) s
      = [request (api p) GET "/api/v1/campaigns/" ∅ NoBody]
    ∧ Forall (λ r, headers r !! "Authorization" = None)
        (Dashboard.requests_of (Reload.reload env base (Some ls)) s)
    ∧ Dashboard.result_of (Reload.reload env base (Some ls)) s = mount base (Some ls)
    ∧ defaults_headers_common
        (api (Dashboard.result_of (Reload.reload env base (Some ls)) s))
        !! "Authorization" = Some ("Bearer " +:+ t).
Proof.
  intros Hls Ht.
  exists (Reload.rerender t
            (sync_effect {| authToken := None; api := create base; window := Some ls |})).
  split; [done|].
  assert (Hrun : ∀ w,
    Reload.reload env base (Some ls) w
    = Reload.second_commit env (Reload.rerender t
        (sync_effect {| authToken := None; api := create base; window := Some ls |})) w).
  { intros w. unfold Reload.reload, Reload.first_commit, Dashboard.bind,
      Dashboard.load_effect, Dashboard.ret.
    cbn -[hydrate_effect sync_effect Reload.second_commit].
    by rewrite (hydrate_effect_stored ls t Hls Ht). }
  assert (Hend : sync_effect (Reload.rerender t
      (sync_effect {| authToken := None; api := create base; window := Some ls |}))
      = mount base (Some ls)).
  { unfold mount. cbn -[hydrate_effect sync_effect setAuthToken].
    rewrite (hydrate_effect_stored ls t Hls Ht).
    unfold setAuthToken. rewrite sync_effect_authToken. simpl. done. }
  assert (Hhdr : defaults_headers_common (api (mount base (Some ls))) !! "Authorization"
                 = Some ("Bearer " +:+ t)).
  { destruct (mount_synced base (Some ls)) as [H _]. rewrite H.
    rewrite (credential_Some _ t); [done| |done].
    rewrite mount_authToken. by apply hydrate_effect_stored. }
  assert (Hnone : defaults_headers_common (api (Reload.rerender t
      (sync_effect {| authToken := None; api := create base; window := Some ls |})))
      !! "Authorization" = None) by apply lookup_delete_eq.
  assert (Htok : authToken (Reload.rerender t
      (sync_effect {| authToken := None; api := create base; window := Some ls |}))
      = Some t) by done.
  unfold Dashboard.requests_of, Dashboard.result_of. rewrite !Hrun.
  revert Hend Hnone Htok.
  generalize (Reload.rerender t
      (sync_effect {| authToken := None; api := create base; window := Some ls |})).
  intros p Hend Hnone Htok.
  unfold Reload.second_commit, Dashboard.bind, Dashboard.ret, Dashboard.load_effect.
  rewrite Htok, (truthy_Some_nonempty t Ht).
  unfold Dashboard.fetchCampaigns, Dashboard.bind, Dashboard.emit,
    Dashboard.setCampaigns, Dashboard.modify.
  destruct (Dashboard.respond_list env _); cbn -[sync_effect mount];
    rewrite Hend;
    (split; [done|]); (split; [done|]);
    (split; [constructor; [by rewrite request_header | constructor]|]);
    (split; [done|]); exact Hhdr.
Qed.

Lemma reload_request_without_bearer_witness :
  Forall (λ r, headers r !! "Authorization" = None)
    (Dashboard.requests_of
       (Reload.reload Scenario.refusing None (Some {[ TOKEN_STORAGE_KEY := "tok" ]}))
       Dashboard.initial)
  ∧ Dashboard.requests_of
      (Reload.reload Scenario.refusing None (Some {[ TOKEN_STORAGE_KEY := "tok" ]}))
      Dashboard.initial ≠ [].
Proof.
  destruct (reload_request_without_bearer Scenario.refusing None
              {[ TOKEN_STORAGE_KEY := "tok" ]} "tok" Dashboard.initial)
    as (p & _ & _ & Hreq & Hall & _).
  - reflexivity.
  - discriminate.
  - split; [exact Hall|]. rewrite Hreq. discriminate.
Defined.

End ReloadClaims.

(** ** Strings *)

Section StringProps.

Lemma append_nil (r : string) : "" +:+ r = r.
Proof. reflexivity. Qed.

Lemma append_cons (c : ascii) (s r : string) :
  String c s +:+ r = String c (s +:+ r).
Proof. reflexivity. Qed.

Lemma startsWith_spec (s p : string) :
  Js.startsWith s p = true ↔ ∃ r, s = p +:+ r.
Proof.
  unfold Js.startsWith. revert s. induction p as [|c p IH]; intros s; simpl.
  - split; [intros _; by exists s | by destruct s].
  - setoid_rewrite append_cons. destruct s as [|d s]; simpl.
    + split; [done | intros [r Hr]; discriminate].
    + destruct (Ascii.ascii_dec c d) as [->|Hne].
      * rewrite IH. split; intros [r Hr]; exists r; congruence.
      * split; [done | intros [r Hr]; congruence].
Qed.

Lemma startsWith_empty (p : string) : p ≠ "" → Js.startsWith "" p = false.
Proof. by destruct p. Qed.

(** [trimStart] removes a run of white space and stops at the first other
    character. *)
Lemma trimStart_spec (s : string) :
  ∃ ws, s = ws +:+ Js.trimStart s
    ∧ Forall (λ c, Js.isWhiteSpace c = true) (list_ascii_of_string ws)
    ∧ match Js.trimStart s with
      | String c _ => Js.isWhiteSpace c = false
      | EmptyString => True
      end.
Proof.
  induction s as [|c s (ws & Hs & Hws & Hhd)]; [by exists ""|].
  simpl. destruct (Js.isWhiteSpace c) eqn:E.
  - exists (String c ws). rewrite append_cons, <- Hs.
    split; [done|]. split; [by constructor | done].
  - exists "". rewrite append_nil. split; [done|]. split; [constructor | done].
Qed.

(** [trimEnd] removes a run of white space at the end, and what it keeps
    does not end in white space. *)
Lemma trimEnd_spec (s : string) :
  ∃ ws, s = Js.trimEnd s +:+ ws
    ∧ Forall (λ c, Js.isWhiteSpace c = true) (list_ascii_of_string ws)
    ∧ ∀ r c, Js.trimEnd s = r +:+ String c "" → Js.isWhiteSpace c = false.
Proof.
  induction s as [|c s (ws & Hs & Hws & Hlast)].
  { exists "". split; [done|]. split; [constructor|]. by intros [|??] ?. }
  simpl. destruct (Js.trimEnd s) as [|d r'] eqn:E.
  - rewrite append_nil in Hs. subst s. destruct (Js.isWhiteSpace c) eqn:Ec.
    + exists (String c ws). split; [done|]. split; [by constructor|]. by intros [|??] ?.
    + exists ws. split; [done|]. split; [done|].
      intros [|e r] c'; rewrite ?append_cons, ?append_nil; intros Heq.
      * by injection Heq as ->.
      * injection Heq as _ Heq. by destruct r.
  - exists ws. rewrite append_cons, <- Hs. split; [done|]. split; [done|].
    intros [|e r] c'; rewrite ?append_cons, ?append_nil; intros Heq; [discriminate|].
    injection Heq as -> Heq. by apply (Hlast r c').
Qed.

Lemma trimEnd_keeps_head (c : ascii) (s : string) :
  Js.isWhiteSpace c = false →
  ∃ r, Js.trimEnd (String c s) = String c r.
Proof. intros Hc. simpl. destruct (Js.trimEnd s); rewrite ?Hc; eauto. Qed.

(** [trim] keeps the part between the leading and the trailing white
    space: the result neither starts nor ends with a white-space character. *)
Lemma trim_spec (s : string) :
  ∃ pre post, s = pre +:+ (Js.trim s +:+ post)
    ∧ Forall (λ c, Js.isWhiteSpace c = true) (list_ascii_of_string pre)
    ∧ Forall (λ c, Js.isWhiteSpace c = true) (list_ascii_of_string post)
    ∧ match Js.trim s with
      | String c _ => Js.isWhiteSpace c = false
      | EmptyString => True
      end
    ∧ ∀ r c, Js.trim s = r +:+ String c "" → Js.isWhiteSpace c = false.
Proof.
  unfold Js.trim.
  destruct (trimStart_spec s) as (pre & Hs & Hpre & Hhd).
  destruct (trimEnd_spec (Js.trimStart s)) as (post & Ht & Hpost & Hlast).
  exists pre, post. split; [by rewrite <- Ht|]. repeat split; try done.
  destruct (Js.trimStart s) as [|c t]; [done|].
  destruct (trimEnd_keeps_head c t Hhd) as [r ->]. done.
Qed.

(** A name of white space only trims to the empty string, and only such
    a name does. *)
Lemma trim_empty_iff (s : string) :
  Js.trim s = "" ↔ Forall (λ c, Js.isWhiteSpace c = true) (list_ascii_of_string s).
Proof.
  split.
  - intros He. destruct (trim_spec s) as (pre & post & Hs & Hpre & Hpost & _).
    rewrite He, append_nil in Hs. subst s.
    clear He. induction pre as [|c pre IH]; [done|].
    rewrite append_cons. simpl. inversion_clear Hpre. constructor; auto.
  - unfold Js.trim. induction s as [|c s IH]; simpl; [done|].
    intros H. inversion_clear H as [|? ? Hc Hs]. rewrite Hc. auto.
Qed.

End StringProps.

(** ** The create-campaign form *)

Section FormProps.
Import Http Dashboard.

(** The first request of [handleSubmit] is the multipart POST built from
    the state of the render, whatever the server answers. *)
Lemma submitted_eq (env : Env) (api : Axios) (s : State) :
  submitted env api s =
    Some (request api POST "/api/v1/generate/campaign"
            {[ "Content-Type" := "multipart/form-data" ]}
            (Multipart (campaign_formData s))).
Proof.
  unfold submitted, requests_of, handleSubmit, fetchCampaigns, bind, get, emit,
    setIsGenerating, setActiveCampaign, setCampaigns, modify. simpl.
  destruct (respond_details env _); simpl; [|done].
  by destruct (respond_list env _).
Qed.

Lemma parts_app (k : string) (fd1 fd2 : list (string * FormValue)) :
  parts k (fd1 ++ fd2)%list = (parts k fd1 ++ parts k fd2)%list.
Proof. unfold parts. by rewrite List.filter_app, fmap_app. Qed.

Lemma parts_append (k k' : string) (v : FormValue) (fd : list (string * FormValue)) :
  parts k (append k' v fd) = (parts k fd ++ (if bool_decide (k' = k) then [v] else []))%list.
Proof.
  unfold append. rewrite parts_app. f_equal. unfold parts. simpl.
  by destruct (bool_decide (k' = k)).
Qed.

(** The parts of the form, field by field. *)
Lemma formData_product_name (s : State) :
  parts "product_name" (campaign_formData s) =
    if Js.nonEmpty (Js.trim (productName s))
    then [FText (Js.trim (productName s))] else [].
Proof.
  unfold campaign_formData.
  destruct (Js.nonEmpty _), (productImage s); by rewrite !parts_append.
Qed.

Lemma formData_product_image (s : State) :
  parts "product_image" (campaign_formData s) =
    match productImage s with Some f => [FFile f] | None => [] end.
Proof.
  unfold campaign_formData.
  destruct (Js.nonEmpty _), (productImage s); by rewrite !parts_append.
Qed.

Lemma formData_num_variations (s : State) :
  parts "num_variations" (campaign_formData s) = [FText (Js.toString (numVariations s))].
Proof.
  unfold campaign_formData.
  destruct (Js.nonEmpty _), (productImage s); by rewrite !parts_append.
Qed.

End FormProps.

Section FormClaims.
Import Http Dashboard.

(** C3: when a file is chosen in the product-image input, a file larger
    than 10 MiB is rejected: [productImage] is cleared, the input is reset,
    and the next create-campaign request has no [product_image] part; a
    file of at most 10 MiB is kept and attached as the [product_image]
    part. *)
Theorem productImage_size_limit (env : Env) (api : Axios)
    (target : FileInput) (file : File) (s : State) :
  head (files target) = Some file →
  (10 * 1024 * 1024 < size file →
     productImage (state_after (productImage_onChange target) s) = None
     ∧ files (result_of (productImage_onChange target) s) = []
     ∧ multipart_parts "product_image"
         <$> submitted env api (state_after (productImage_onChange target) s)
       = Some [])
  ∧ (size file ≤ 10 * 1024 * 1024 →
     productImage (state_after (productImage_onChange target) s) = Some file
     ∧ result_of (productImage_onChange target) s = target
     ∧ multipart_parts "product_image"
         <$> submitted env api (state_after (productImage_onChange target) s)
       = Some [FFile file]).
Proof.
  intros Hfile. rewrite !submitted_eq. unfold multipart_parts. simpl.
  rewrite formData_product_image.
  unfold state_after, result_of, productImage_onChange. rewrite Hfile.
  split; intros Hsize.
  - apply Z.ltb_lt in Hsize. by rewrite Hsize.
  - apply Z.ltb_ge in Hsize. by rewrite Hsize.
Qed.

Lemma productImage_size_limit_witness :
  multipart_parts "product_image"
    <$> submitted Scenario.refusing Scenario.api
          (state_after (productImage_onChange {| files := [Scenario.photo 10485761] |}) initial)
  = Some []
  ∧ multipart_parts "product_image"
    <$> submitted Scenario.refusing Scenario.api
          (state_after (productImage_onChange {| files := [Scenario.photo 10485760] |}) initial)
  = Some [FFile (Scenario.photo 10485760)].
Proof.
  split.
  - refine (proj2 (proj2 (proj1 (productImage_size_limit Scenario.refusing Scenario.api
              {| files := [Scenario.photo 10485761] |} (Scenario.photo 10485761)
              initial _) _))).
    + reflexivity.
    + simpl. lia.
  - refine (proj2 (proj2 (proj2 (productImage_size_limit Scenario.refusing Scenario.api
              {| files := [Scenario.photo 10485760] |} (Scenario.photo 10485760)
              initial _) _))).
    + reflexivity.
    + simpl. lia.
Defined.

(** C4, as stated, fails: with 5 typed into the variation field and A/B
    testing switched off again (the field is then no longer rendered), the
    create-campaign request carries [num_variations = 5], outside [2,3]. *)
Lemma num_variations_out_of_range :
  numVariations_input Scenario.five_variations_hidden = None
  ∧ ¬ ∃ n, 2 ≤ n ≤ 3
        ∧ multipart_parts "num_variations"
            <$> submitted Scenario.refusing Scenario.api Scenario.five_variations_hidden
          = Some [FText (Js.toString n)].
Proof.
  split; [reflexivity|]. intros (n & Hn & Hparts).
  rewrite submitted_eq in Hparts. unfold multipart_parts in Hparts. simpl in Hparts.
  rewrite formData_num_variations in Hparts.
  assert (n = 2 ∨ n = 3) as [-> | ->] by lia; vm_compute in Hparts; discriminate.
Qed.

(** C4 (amended): the [num_variations] value of a create-campaign request
    is the decimal text of the [numVariations] state; that state starts at
    2 and after every change of the variation field is [parseInt] of the
    entered text, falling back to 2 when the text is unparsable or parses
    to 0; the field, where rendered, has min 2 and max 3 and shows the
    state; the value sent lies in [2,3] whenever the state does, as after
    entering a text that parses to 2 or 3 or triggers the fallback. *)
Theorem num_variations_field (env : Env) (api : Axios) (s : State) (text : string) :
  numVariations initial = 2
  ∧ numVariations (state_after (numVariations_onChange text) s)
    = match Js.parseInt text with
      | Some n => if n =? 0 then 2 else n
      | None => 2
      end
  ∧ multipart_parts "num_variations" <$> submitted env api s
    = Some [FText (Js.toString (numVariations s))]
  ∧ (∀ field, numVariations_input s = Some field →
       min field = 2 ∧ max field = 3 ∧ value field = numVariations s)
  ∧ (Js.parseInt text = None ∨ Js.parseInt text = Some 0
     ∨ Js.parseInt text = Some 2 ∨ Js.parseInt text = Some 3 →
     ∃ n, 2 ≤ n ≤ 3
       ∧ multipart_parts "num_variations"
           <$> submitted env api (state_after (numVariations_onChange text) s)
         = Some [FText (Js.toString n)]).
Proof.
  assert (Hchange : numVariations (state_after (numVariations_onChange text) s)
    = match Js.parseInt text with
      | Some n => if n =? 0 then 2 else n
      | None => 2
      end).
  { unfold state_after, numVariations_onChange, setNumVariations, modify,
      Js.parseIntOr. simpl. by destruct (Js.parseInt text) as [[| |]|]. }
  assert (Hsent : ∀ s', multipart_parts "num_variations" <$> submitted env api s'
    = Some [FText (Js.toString (numVariations s'))]).
  { intros s'. rewrite submitted_eq. unfold multipart_parts. simpl.
    by rewrite formData_num_variations. }
  split; [done|]. split; [done|]. split; [done|]. split.
  - intros field. unfold numVariations_input.
    destruct (enableABTesting s); [|done]. by intros [= <-].
  - intros Hparse. rewrite Hsent, Hchange.
    destruct Hparse as [-> | [-> | [-> | ->]]]; simpl;
      [exists 2 | exists 2 | exists 2 | exists 3]; (split; [lia | done]).
Qed.

Lemma num_variations_field_witness :
  ∃ n, 2 ≤ n ≤ 3
    ∧ multipart_parts "num_variations"
        <$> submitted Scenario.refusing Scenario.api
              (state_after (numVariations_onChange "3") Scenario.five_variations)
      = Some [FText (Js.toString n)].
Proof.
  refine (proj2 (proj2 (proj2 (proj2 (num_variations_field Scenario.refusing Scenario.api
            Scenario.five_variations "3")))) _).
  right. right. right. reflexivity.
Defined.

(** C5: a create-campaign request has a [product_name] field if and only
    if the product-name input is non-empty after trimming; the value sent
    is then the trimmed name, and with an empty trimmed name the field is
    absent from the multipart body. *)
Theorem product_name_field (env : Env) (api : Axios) (s : State) :
  ∃ r, submitted env api s = Some r
    ∧ (multipart_parts "product_name" r ≠ [] ↔ Js.trim (productName s) ≠ "")
    ∧ (Js.trim (productName s) ≠ "" →
       multipart_parts "product_name" r = [FText (Js.trim (productName s))])
    ∧ (Js.trim (productName s) = "" → multipart_parts "product_name" r = []).
Proof.
  rewrite submitted_eq. eexists. split; [done|].
  unfold multipart_parts. simpl. rewrite formData_product_name.
  unfold Js.nonEmpty. case_bool_decide as Hname.
  - naive_solver.
  - naive_solver.
Qed.

Lemma product_name_field_witness :
  ∃ r, submitted Scenario.refusing Scenario.api Scenario.two_campaigns = Some r
    ∧ multipart_parts "product_name" r = [FText "Widget"].
Proof.
  destruct (product_name_field Scenario.refusing Scenario.api Scenario.two_campaigns)
    as (r & Hr & _ & Hsome & _).
  exists r. split; [exact Hr|]. apply Hsome. vm_compute. discriminate.
Defined.

End FormClaims.

(** ** Asset URLs, regeneration, deletion *)

Section DashboardClaims.
Import Http Dashboard.

(** C2: [resolveAssetUrl] returns a path that starts with ['http']
    unchanged, returns the API base followed by the path for any other
    non-empty path, and returns the empty string for a null, undefined or
    empty path. *)
Theorem resolveAssetUrl_cases (API_URL : option string) :
  (∀ p, Js.startsWith p "http" = true → resolveAssetUrl API_URL (Some p) = p)
  ∧ (∀ rest, resolveAssetUrl API_URL (Some ("http" +:+ rest)) = "http" +:+ rest)
  ∧ (∀ p, p ≠ "" → Js.startsWith p "http" = false →
       resolveAssetUrl API_URL (Some p) = Js.template API_URL +:+ p)
  ∧ (∀ base p, API_URL = Some base → p ≠ "" → Js.startsWith p "http" = false →
       resolveAssetUrl API_URL (Some p) = base +:+ p)
  ∧ resolveAssetUrl API_URL None = ""
  ∧ resolveAssetUrl API_URL (Some "") = "".
Proof.
  assert (Hhttp : ∀ p, Js.startsWith p "http" = true →
            resolveAssetUrl API_URL (Some p) = p).
  { intros p Hp. unfold resolveAssetUrl. rewrite Hp.
    destruct p as [|c p]; [discriminate|]. done. }
  assert (Hrel : ∀ p, p ≠ "" → Js.startsWith p "http" = false →
            resolveAssetUrl API_URL (Some p) = Js.template API_URL +:+ p).
  { intros p Hne Hp. unfold resolveAssetUrl.
    by rewrite (truthy_Some_nonempty p Hne), Hp. }
  split; [done|]. split.
  { intros rest. apply Hhttp, startsWith_spec. by exists rest. }
  split; [done|]. split; [|done].
  intros base p -> Hne Hp. by rewrite Hrel.
Qed.

Lemma resolveAssetUrl_cases_witness :
  resolveAssetUrl (Some "http://127.0.0.1:8000") (Some "https://cdn.example.com/a.png")
    = "https://cdn.example.com/a.png"
  ∧ resolveAssetUrl (Some "http://127.0.0.1:8000") (Some "/static/images/a.png")
    = "http://127.0.0.1:8000/static/images/a.png".
Proof.
  split.
  - refine (proj1 (resolveAssetUrl_cases (Some "http://127.0.0.1:8000")) _ _).
    reflexivity.
  - refine (proj1 (proj2 (proj2 (proj2 (resolveAssetUrl_cases
              (Some "http://127.0.0.1:8000")))))
              "http://127.0.0.1:8000" "/static/images/a.png" _ _ _).
    + reflexivity.
    + discriminate.
    + reflexivity.
Defined.

(** What [handleRegenerateImage] sends: the POST, and after a success the
    reload of the campaign. *)
Lemma handleRegenerateImage_requests (env : Env) (api : Axios)
    (campaignId : Z) (platform : string) (v : option Z) (s : State) :
  requests_of (handleRegenerateImage env api campaignId platform v) s =
    let post :=
      request api POST "/api/v1/assets/regenerate" ∅
        (JsonBody (regenerate_body campaignId platform (default 0 v))) in
    post ::
    match respond env post with
    | Ok _ =>
        [request api GET ("/api/v1/campaigns/" +:+ Js.toString campaignId) ∅ NoBody]
    | Err _ => []
    end.
Proof.
  unfold requests_of, handleRegenerateImage, fetchCampaignDetails, bind, emit,
    setIsFetchingCampaign, setActiveCampaign, modify. simpl.
  destruct (respond env _); simpl; [|done].
  by destruct (respond_details env _).
Qed.

(** C6: [handleRegenerateImage] posts to ['/api/v1/assets/regenerate'] a
    body with exactly the fields [campaign_id], [platform] and
    [variation_number]; the variation is 0 when none is supplied; the
    Regenerate button of the main image always passes variation 0. *)
Theorem regenerate_request (env : Env) (api : Axios)
    (campaignId : Z) (platform : string) (v : option Z) (s : State)
    (c : CampaignDetails.t) (text : GeneratedText.t) :
  head (requests_of (handleRegenerateImage env api campaignId platform v) s)
    = Some (request api POST "/api/v1/assets/regenerate" ∅
              (JsonBody [("campaign_id", JNum campaignId);
                         ("platform", JStr platform);
                         ("variation_number", JNum (default 0 v))]))
  ∧ Forall (λ r, method r = GET)
      (tail (requests_of (handleRegenerateImage env api campaignId platform v) s))
  ∧ head (requests_of (handleRegenerateImage env api campaignId platform None) s)
    = Some (request api POST "/api/v1/assets/regenerate" ∅
              (JsonBody [("campaign_id", JNum campaignId);
                         ("platform", JStr platform);
                         ("variation_number", JNum 0)]))
  ∧ head (requests_of (mainImage_regenerate_onClick env api c text) s)
    = Some (request api POST "/api/v1/assets/regenerate" ∅
              (JsonBody [("campaign_id", JNum (CampaignDetails.id c));
                         ("platform", JStr (GeneratedText.platform text));
                         ("variation_number", JNum 0)])).
Proof.
  unfold mainImage_regenerate_onClick. rewrite !handleRegenerateImage_requests.
  simpl. repeat split. destruct (respond env _); repeat constructor.
Qed.

(** The outcome of [handleDeleteCampaign], case by case. *)
Lemma handleDeleteCampaign_declined (env : Env) (api : Axios) (c : Z) (w : World) :
  confirm env "Are you sure you want to delete this campaign?" = false →
  handleDeleteCampaign env api c w = (false, w).
Proof. intros H. unfold handleDeleteCampaign, bind, get, ret. by rewrite H. Qed.

Lemma handleDeleteCampaign_failed (env : Env) (api : Axios) (c : Z) (s : State)
    (detail : option string) :
  confirm env "Are you sure you want to delete this campaign?" = true →
  respond env (request api DELETE ("/campaigns/" +:+ Js.toString c) ∅ NoBody)
    = Err detail →
  result_of (handleDeleteCampaign env api c) s = false
  ∧ state_after (handleDeleteCampaign env api c) s = s.
Proof.
  intros Hc Hr. unfold result_of, state_after, handleDeleteCampaign, bind, get, emit, ret.
  simpl. by rewrite Hc, Hr.
Qed.

Lemma handleDeleteCampaign_done (env : Env) (api : Axios) (c : Z) (s : State) :
  confirm env "Are you sure you want to delete this campaign?" = true →
  respond env (request api DELETE ("/campaigns/" +:+ Js.toString c) ∅ NoBody)
    = Ok tt →
  result_of (handleDeleteCampaign env api c) s = true
  ∧ campaigns (state_after (handleDeleteCampaign env api c) s)
    = List.filter (λ campaign, negb (CampaignSummary.id campaign =? c)) (campaigns s)
  ∧ activeCampaign (state_after (handleDeleteCampaign env api c) s)
    = match activeCampaign s with
      | Some a => if CampaignDetails.id a =? c then None else Some a
      | None => None
      end.
Proof.
  intros Hc Hr. unfold result_of, state_after, handleDeleteCampaign, bind, get, emit, ret.
  simpl. rewrite Hc, Hr. simpl.
  destruct (activeCampaign s) as [a|] eqn:Ea; simpl; [|done].
  destruct (CampaignDetails.id a =? c); simpl; by rewrite ?Ea.
Qed.

(** C7: after a confirmed and successful delete of campaign [c] the
    handler returns true, [c] is absent from the campaigns list, every
    other summary is kept as it was and in place, and [activeCampaign] is
    null if it had id [c] and is untouched otherwise; when the user
    declines or the call fails the handler returns false and leaves the
    list and the active campaign (the whole state) unchanged. *)
Theorem delete_campaign_frame (env : Env) (api : Axios) (c : Z) (s : State) :
  (confirm env "Are you sure you want to delete this campaign?" = true →
   respond env (request api DELETE ("/campaigns/" +:+ Js.toString c) ∅ NoBody) = Ok tt →
     result_of (handleDeleteCampaign env api c) s = true
     ∧ (∀ x, x ∈ campaigns (state_after (handleDeleteCampaign env api c) s)
             ↔ x ∈ campaigns s ∧ CampaignSummary.id x ≠ c)
     ∧ campaigns (state_after (handleDeleteCampaign env api c) s)
       = List.filter (λ x, negb (CampaignSummary.id x =? c)) (campaigns s)
     ∧ (∀ a, activeCampaign s = Some a → CampaignDetails.id a = c →
          activeCampaign (state_after (handleDeleteCampaign env api c) s) = None)
     ∧ (∀ a, activeCampaign s = Some a → CampaignDetails.id a ≠ c →
          activeCampaign (state_after (handleDeleteCampaign env api c) s) = Some a)
     ∧ (activeCampaign s = None →
          activeCampaign (state_after (handleDeleteCampaign env api c) s) = None))
  ∧ (confirm env "Are you sure you want to delete this campaign?" = false
     ∨ (∃ detail,
          respond env (request api DELETE ("/campaigns/" +:+ Js.toString c) ∅ NoBody)
            = Err detail) →
     result_of (handleDeleteCampaign env api c) s = false
     ∧ state_after (handleDeleteCampaign env api c) s = s).
Proof.
  split.
  - intros Hc Hr.
    destruct (handleDeleteCampaign_done env api c s Hc Hr) as (Hres & Hlist & Hact).
    split; [done|]. split; [|split; [done|]].
    + intros x. rewrite Hlist, !list_elem_of_In, List.filter_In, negb_true_iff.
      by rewrite Z.eqb_neq.
    + rewrite Hact. split; [|split].
      * intros a -> <-. by rewrite Z.eqb_refl.
      * intros a -> Hne. apply Z.eqb_neq in Hne. by rewrite Hne.
      * by intros ->.
  - intros [Hc | [detail Hr]].
    + unfold result_of, state_after. by rewrite handleDeleteCampaign_declined.
    + destruct (confirm env "Are you sure you want to delete this campaign?") eqn:Hc.
      * by apply (handleDeleteCampaign_failed env api c s detail).
      * unfold result_of, state_after. by rewrite handleDeleteCampaign_declined.
Qed.

Lemma delete_campaign_frame_witness :
  campaigns (state_after (handleDeleteCampaign Scenario.accepting Scenario.api 7)
               Scenario.two_campaigns)
    = [Scenario.summary 9 "2025-01-03T09:00:00"]
  ∧ activeCampaign (state_after (handleDeleteCampaign Scenario.accepting Scenario.api 7)
                      Scenario.two_campaigns) = None
  ∧ state_after (handleDeleteCampaign Scenario.refusing Scenario.api 7)
      Scenario.two_campaigns = Scenario.two_campaigns.
Proof.
  destruct (delete_campaign_frame Scenario.accepting Scenario.api 7 Scenario.two_campaigns)
    as [Hdone _].
  destruct Hdone as (_ & _ & Hlist & Hact & _); [reflexivity | reflexivity |].
  split; [exact Hlist|]. split.
  - exact (Hact _ eq_refl eq_refl).
  - refine (proj2 (proj2 (delete_campaign_frame Scenario.refusing Scenario.api 7
              Scenario.two_campaigns) _)).
    right. exists None. reflexivity.
Defined.

(** C8: the dashboard stats depend on [campaigns] and [activeCampaign]
    only: [totalCampaigns] is the length of the list, [lastRun] is the
    [created_at] of its first summary (null for the empty list, which
    [formatTime] renders as ['No campaigns yet']), and that first summary
    is the most recently created one when the list is ordered most recent
    first; [totalImages] is the number of images of the active campaign, 0
    when none is active. *)
Theorem stats_of_loaded_data (Date_getTime : string → option Z)
    (toLocaleTimeString : Z → string) (epoch : string → Z) (s : State) :
  (∀ s', campaigns s' = campaigns s → activeCampaign s' = activeCampaign s →
     stats s' = stats s)
  ∧ totalCampaigns (stats s) = length (campaigns s)
  ∧ lastRun (stats s)
    = match campaigns s with
      | [] => None
      | first :: _ => Some (CampaignSummary.created_at first)
      end
  ∧ (campaigns s = [] →
     lastRun (stats s) = None
     ∧ formatTime Date_getTime toLocaleTimeString (lastRun (stats s)) = "No campaigns yet")
  ∧ (Sorted (λ a b, epoch (CampaignSummary.created_at b)
                    ≤ epoch (CampaignSummary.created_at a)) (campaigns s) →
     ∀ first x, head (campaigns s) = Some first → x ∈ campaigns s →
       lastRun (stats s) = Some (CampaignSummary.created_at first)
       ∧ epoch (CampaignSummary.created_at x) ≤ epoch (CampaignSummary.created_at first))
  ∧ totalImages (stats s)
    = match activeCampaign s with
      | Some a => length (CampaignDetails.images a)
      | None => 0%nat
      end.
Proof.
  split; [by intros s' Hc Ha; unfold stats; rewrite Hc, Ha|].
  split; [done|]. split; [unfold stats; simpl; by destruct (campaigns s)|].
  split; [by intros H; unfold stats; rewrite H|]. split; [|done].
  intros Hsorted first x Hhead Hx. unfold stats. simpl.
  destruct (campaigns s) as [|y l]; [done|]. injection Hhead as ->.
  split; [done|].
  apply Sorted_StronglySorted in Hsorted; [|intros a b d; lia].
  apply StronglySorted_inv in Hsorted as [_ Hall].
  apply elem_of_cons in Hx as [-> | Hx]; [lia|].
  rewrite List.Forall_forall in Hall. by apply Hall, list_elem_of_In.
Qed.

Lemma stats_of_loaded_data_witness :
  lastRun (stats Scenario.two_campaigns) = Some "2025-01-03T09:00:00"
  ∧ formatTime (λ _, None) (λ _, "") (lastRun (stats initial)) = "No campaigns yet".
Proof.
  split.
  - refine (proj1 (proj1 (proj2 (proj2 (proj2 (proj2
              (stats_of_loaded_data (λ _, None) (λ _, "")
                 (λ t, if String.eqb t "2025-01-03T09:00:00" then 1 else 0)
                 Scenario.two_campaigns))))) _
              (Scenario.summary 9 "2025-01-03T09:00:00")
              (Scenario.summary 7 "2025-01-02T10:00:00") _ _)).
    + repeat constructor; vm_compute; discriminate.
    + reflexivity.
    + repeat constructor.
  - refine (proj2 (proj1 (proj2 (proj2 (proj2
              (stats_of_loaded_data (λ _, None) (λ _, "") (λ _, 0) initial)))) _)).
    reflexivity.
Defined.

(** C9: an image without a variation number counts as variation 0:
    [findImage p v] returns either nothing or an image of the active
    campaign with platform [p] whose [variation_number ?? 0] is [v] (0 when
    [v] is omitted), and it returns nothing only if no image matches; an
    image is labelled ['Main'] on the A/B card exactly when its
    [variation_number ?? 0] is 0. *)
Theorem findImage_defaults_to_primary (s : State) (p : string) (v : option Z) :
  (∀ img, findImage s p v = Some img →
     GeneratedImage.platform img = p
     ∧ default 0 (GeneratedImage.variation_number img) = default 0 v
     ∧ ∃ a, activeCampaign s = Some a ∧ img ∈ CampaignDetails.images a)
  ∧ (findImage s p v = None →
     ∀ a img, activeCampaign s = Some a → img ∈ CampaignDetails.images a →
       ¬ (GeneratedImage.platform img = p
          ∧ default 0 (GeneratedImage.variation_number img) = default 0 v))
  ∧ (∀ a img, activeCampaign s = Some a → img ∈ CampaignDetails.images a →
       GeneratedImage.variation_number img = None →
       is_Some (findImage s (GeneratedImage.platform img) (Some 0))
       ∧ is_Some (findImage s (GeneratedImage.platform img) None))
  ∧ (∀ img, variation_label img = "Main"
            ↔ default 0 (GeneratedImage.variation_number img) = 0)
  ∧ (∀ img, GeneratedImage.variation_number img = None → variation_label img = "Main").
Proof.
  assert (Hnone : ∀ q w, findImage s q w = None →
    ∀ a img, activeCampaign s = Some a → img ∈ CampaignDetails.images a →
      ¬ (GeneratedImage.platform img = q
         ∧ default 0 (GeneratedImage.variation_number img) = default 0 w)).
  { intros q w Hfind a img Ha Hin [Hp Hv]. unfold findImage in Hfind. rewrite Ha in Hfind.
    apply list_elem_of_In in Hin.
    pose proof (List.find_none _ _ Hfind img Hin) as Hf. simpl in Hf.
    rewrite Hp, Hv, bool_decide_eq_true_2, Z.eqb_refl in Hf; done. }
  split; [|split; [by apply Hnone|split; [|split]]].
  - intros img Hfind. unfold findImage in Hfind.
    destruct (activeCampaign s) as [a|]; [|done].
    apply List.find_some in Hfind as [Hin Hf].
    apply andb_true_iff in Hf as [Hp Hv].
    apply bool_decide_eq_true in Hp. apply Z.eqb_eq in Hv.
    split; [done|]. split; [done|]. exists a. split; [done|]. by apply list_elem_of_In.
  - intros a img Ha Hin Hvn.
    assert (is_Some (findImage s (GeneratedImage.platform img) (Some 0))) as Hs.
    { destruct (findImage s (GeneratedImage.platform img) (Some 0)) eqn:E; [by eexists|].
      exfalso. apply (Hnone _ _ E a img Ha Hin). by rewrite Hvn. }
    split; exact Hs.
  - intros img. unfold variation_label, isMain.
    destruct (default 0 (GeneratedImage.variation_number img) =? 0) eqn:E.
    + by apply Z.eqb_eq in E.
    + apply Z.eqb_neq in E. split; [discriminate | done].
  - intros img Hvn. unfold variation_label, isMain. by rewrite Hvn.
Qed.

Lemma findImage_defaults_to_primary_witness :
  findImage Scenario.two_campaigns "Instagram" None
    = Some (Scenario.image 1 "Instagram" None)
  ∧ GeneratedImage.platform (Scenario.image 1 "Instagram" None) = "Instagram"
  ∧ default 0 (GeneratedImage.variation_number (Scenario.image 1 "Instagram" None)) = 0.
Proof.
  split; [reflexivity|].
  destruct (proj1 (findImage_defaults_to_primary Scenario.two_campaigns "Instagram" None)
              (Scenario.image 1 "Instagram" None) eq_refl) as (Hp & Hv & _).
  split; [exact Hp | exact Hv].
Defined.

End DashboardClaims.

(** ** The model at work on concrete inputs *)

Section Examples.
Import Http Dashboard.

Example parseInt_examples :
  Js.parseInt "3" = Some 3 ∧ Js.parseInt "  -12px" = Some (-12) ∧
  Js.parseInt "0x1f" = Some 31 ∧ Js.parseInt "1e5" = Some 1 ∧
  Js.parseInt "2.9" = Some 2 ∧ Js.parseInt "" = None ∧
  Js.parseInt "abc" = None ∧ Js.parseInt "0x" = None ∧ Js.parseInt ".5" = None.
Proof. repeat split; reflexivity. Qed.

Example parseIntOr_examples :
  Js.parseIntOr "3" 2 = 3 ∧ Js.parseIntOr "" 2 = 2 ∧ Js.parseIntOr "0" 2 = 2 ∧
  Js.parseIntOr "-0" 2 = 2 ∧ Js.parseIntOr "7" 2 = 7 ∧ Js.parseIntOr "-1" 2 = -1.
Proof. repeat split; reflexivity. Qed.

Example trim_examples :
  Js.trim "  Galaxy S25 " = "Galaxy S25" ∧ Js.trim "   " = "" ∧
  Js.trim "a  b" = "a  b" ∧ Js.toString (-12) = "-12" ∧ Js.toString 0 = "0".
Proof. repeat split; reflexivity. Qed.

(** The whole multipart body of a submit, in the order of the [append]s. *)
Example formData_example :
  campaign_formData Scenario.two_campaigns =
    [("product_url", FText "https://example.com/widget");
     ("product_name", FText "Widget");
     ("enable_ab_testing", FText "false");
     ("num_variations", FText "2")].
Proof. reflexivity. Qed.

(** A reload with a stored token: the sync effect of the first commit
    clears the storage, the re-render after hydration writes it back. *)
Example mount_with_stored_token :
  ApiContext.authToken
    (ApiContext.mount None (Some {[ ApiContext.TOKEN_STORAGE_KEY := "tok" ]})) = Some "tok"
  ∧ ApiContext.window
      (ApiContext.mount None (Some {[ ApiContext.TOKEN_STORAGE_KEY := "tok" ]}))
    = Some {[ ApiContext.TOKEN_STORAGE_KEY := "tok" ]}.
Proof. split; [reflexivity|]. vm_compute. reflexivity. Qed.

(** The rejected response of a delete leaves a trace but no change. *)
Example delete_refused_log :
  log (handleDeleteCampaign Scenario.refusing Scenario.api 7
         {| ui := Scenario.two_campaigns; log := [] |}).2
  = [Sent (request Scenario.api DELETE "/campaigns/7" ∅ NoBody);
     ConsoleError "Failed to delete campaign";
     ToastError "Unable to delete campaign."].
Proof. reflexivity. Qed.

End Examples.

(** * Further properties of the sources *)

(** ** The provider: what login and logout leave alone, and how they compose *)

Section ProviderAlgebra.
Import Http ApiContext.

(** Running the sync effect for a new token. *)
Lemma sync_effect_twice (u v : option string) (a : Axios) (w : option (gmap string string)) :
  sync_effect {| authToken := v;
                 api := api (sync_effect {| authToken := u; api := a; window := w |});
                 window := window (sync_effect {| authToken := u; api := a; window := w |}) |}
  = sync_effect {| authToken := v; api := a; window := w |}.
Proof.
  unfold sync_effect, sync_clear, set_common, delete_common. simpl.
  destruct u as [u|], v as [v|]; simpl;
    repeat match goal with |- context [bool_decide ?P] => destruct (bool_decide P) end;
    simpl; destruct w as [ls|]; simpl;
    by rewrite ?insert_insert_eq, ?insert_delete_eq, ?delete_insert_eq, ?delete_delete_eq.
Qed.

Lemma sync_effect_synced_id (p : Provider) : synced p → sync_effect p = p.
Proof.
  intros [Hhdr Hst]. destruct p as [tok a w]. destruct a as [base hs].
  unfold credential in *. simpl in *.
  unfold sync_effect, sync_clear, set_common, delete_common. simpl.
  destruct tok as [t|]; simpl in *.
  - destruct (bool_decide (t ≠ "")); simpl in *.
    + rewrite (insert_id hs _ _ Hhdr). destruct w as [ls|]; simpl; [|done].
      by rewrite (insert_id ls _ _ (Hst ls eq_refl)).
    + rewrite (delete_id hs _ Hhdr). destruct w as [ls|]; simpl; [|done].
      by rewrite (delete_id ls _ (Hst ls eq_refl)).
  - rewrite (delete_id hs _ Hhdr). destruct w as [ls|]; simpl; [|done].
    by rewrite (delete_id ls _ (Hst ls eq_refl)).
Qed.

(** From a state in step, [setAuthToken v] is the sync effect for [v]. *)
Lemma setAuthToken_sync (v : option string) (p : Provider) :
  synced p →
  setAuthToken v p = sync_effect {| authToken := v; api := api p; window := window p |}.
Proof.
  intros Hp. unfold setAuthToken. case_decide as Hv; [|done]. subst v.
  rewrite <- (sync_effect_synced_id p Hp) at 1. by destruct p.
Qed.

(** X1: The last call wins: in a reachable state, a [login] or [logout]
    followed by another leads to the state the second alone leads to; so
    [logout] undoes any [login], a second [login] replaces the first, and
    each of them is idempotent. *)
Theorem last_call_wins (base : option string) (p : Provider) (u v : option string)
    (t t' : string) :
  reachable base p →
  setAuthToken v (setAuthToken u p) = setAuthToken v p
  ∧ logout (login t p) = logout p
  ∧ login t' (login t p) = login t' p
  ∧ login t (login t p) = login t p
  ∧ logout (logout p) = logout p.
Proof.
  intros Hreach. pose proof (reachable_synced _ _ Hreach) as Hp.
  assert (Hlast : ∀ u v, setAuthToken v (setAuthToken u p) = setAuthToken v p).
  { intros u' v'.
    rewrite (setAuthToken_sync v' (setAuthToken u' p)) by by apply setAuthToken_synced.
    rewrite (setAuthToken_sync u' p Hp), (setAuthToken_sync v' p Hp).
    apply sync_effect_twice. }
  unfold login, logout. by repeat split.
Qed.

Lemma last_call_wins_witness :
  logout (login "tok" (mount None (Some ∅))) = logout (mount None (Some ∅)).
Proof.
  refine (proj1 (proj2 (last_call_wins None (mount None (Some ∅)) None None "tok" "tok" _))).
  apply reach_mount.
Defined.

Lemma sync_effect_accept (q : Provider) :
  defaults_baseURL (api (sync_effect q)) = defaults_baseURL (api q)
  ∧ defaults_headers_common (api (sync_effect q)) !! "Accept"
    = defaults_headers_common (api q) !! "Accept".
Proof.
  unfold sync_effect, sync_clear.
  destruct (authToken q) as [t|]; [destruct (Js.truthy (Some t))|]; simpl;
    by rewrite ?lookup_insert_ne, ?lookup_delete_ne.
Qed.

Lemma setAuthToken_accept (v : option string) (q : Provider) :
  defaults_baseURL (api (setAuthToken v q)) = defaults_baseURL (api q)
  ∧ defaults_headers_common (api (setAuthToken v q)) !! "Accept"
    = defaults_headers_common (api q) !! "Accept".
Proof.
  unfold setAuthToken. case_decide; [done|].
  apply (sync_effect_accept {| authToken := v; api := api q; window := window q |}).
Qed.

Lemma reachable_base_accept (base : option string) (p : Provider) :
  reachable base p →
  defaults_baseURL (api p) = base
  ∧ defaults_headers_common (api p) !! "Accept"
    = Some "application/json, text/plain, */*".
Proof.
  induction 1 as [w|t q Hq [IHb IHa]|q Hq [IHb IHa]].
  - unfold mount.
    destruct (sync_effect_accept {| authToken := None; api := create base; window := w |})
      as [Hb Ha]. simpl in Hb, Ha.
    destruct (hydrate_effect _) as [t|]; [|done].
    destruct (setAuthToken_accept (Some t)
      (sync_effect {| authToken := None; api := create base; window := w |})) as [-> ->].
    done.
  - destruct (setAuthToken_accept (Some t) q) as [Hb Ha].
    unfold login. by rewrite Hb, Ha.
  - destruct (setAuthToken_accept None q) as [Hb Ha].
    unfold logout. by rewrite Hb, Ha.
Qed.

(** X2: Neither the sync effect nor a first mount touches anything but the
    [Authorization] header and the token key: the base URL of the instance,
    its other default headers and the other keys of localStorage stay as
    they are; so every reachable state has the base URL it was created
    with and the [Accept] header of axios. *)
Theorem provider_frame (base : option string) (v : option string) (p : Provider)
    (w : option (gmap string string)) (k : string) :
  defaults_baseURL (api (setAuthToken v p)) = defaults_baseURL (api p)
  ∧ (k ≠ "Authorization" →
     defaults_headers_common (api (setAuthToken v p)) !! k
     = defaults_headers_common (api p) !! k)
  ∧ (k ≠ TOKEN_STORAGE_KEY →
     window (setAuthToken v p) ≫= (.!! k) = window p ≫= (.!! k))
  ∧ defaults_baseURL (api (mount base w)) = base
  ∧ (k ≠ "Authorization" →
     defaults_headers_common (api (mount base w)) !! k
     = defaults_headers_common axios !! k)
  ∧ (k ≠ TOKEN_STORAGE_KEY → window (mount base w) ≫= (.!! k) = w ≫= (.!! k))
  ∧ (reachable base p →
     defaults_baseURL (api p) = base
     ∧ defaults_headers_common (api p) !! "Accept"
       = Some "application/json, text/plain, */*").
Proof.
  assert (Hsync : ∀ q,
    defaults_baseURL (api (sync_effect q)) = defaults_baseURL (api q)
    ∧ (k ≠ "Authorization" →
       defaults_headers_common (api (sync_effect q)) !! k
       = defaults_headers_common (api q) !! k)
    ∧ (k ≠ TOKEN_STORAGE_KEY →
       window (sync_effect q) ≫= (.!! k) = window q ≫= (.!! k))).
  { intros q. unfold sync_effect, sync_clear.
    destruct (authToken q) as [t|]; [destruct (Js.truthy (Some t))|]; simpl;
      (split; [done|]); split; intros Hk;
      rewrite ?lookup_insert_ne, ?lookup_delete_ne by done; try done;
      destruct (window q) as [ls|]; simpl; try done;
      by rewrite ?lookup_insert_ne, ?lookup_delete_ne by done. }
  assert (Hset : ∀ v q,
    defaults_baseURL (api (setAuthToken v q)) = defaults_baseURL (api q)
    ∧ (k ≠ "Authorization" →
       defaults_headers_common (api (setAuthToken v q)) !! k
       = defaults_headers_common (api q) !! k)
    ∧ (k ≠ TOKEN_STORAGE_KEY →
       window (setAuthToken v q) ≫= (.!! k) = window q ≫= (.!! k))).
  { intros v' q. unfold setAuthToken. case_decide; [done|].
    apply (Hsync {| authToken := v'; api := api q; window := window q |}). }
  assert (Hmount : ∀ w',
    defaults_baseURL (api (mount base w')) = base
    ∧ (k ≠ "Authorization" →
       defaults_headers_common (api (mount base w')) !! k
       = defaults_headers_common axios !! k)
    ∧ (k ≠ TOKEN_STORAGE_KEY → window (mount base w') ≫= (.!! k) = w' ≫= (.!! k))).
  { intros w'. unfold mount.
    pose proof (Hsync {| authToken := None; api := create base; window := w' |})
      as (Hb & Hh & Hs). simpl in Hb, Hh, Hs.
    destruct (hydrate_effect _) as [t|]; [|done].
    destruct (Hset (Some t)
      (sync_effect {| authToken := None; api := create base; window := w' |}))
      as (Hb' & Hh' & Hs').
    split; [by rewrite Hb'|]. split; intros Hk; [rewrite Hh' | rewrite Hs']; auto. }
  destruct (Hset v p) as (? & ? & ?). destruct (Hmount w) as (? & ? & ?).
  repeat (split; [done|]). apply reachable_base_accept.
Qed.

Lemma provider_frame_witness :
  window (login "tok" (mount None (Some {[ "theme" := "dark" ]}))) ≫= (.!! "theme")
  = Some "dark".
Proof.
  refine (eq_trans (proj1 (proj2 (proj2 (provider_frame None (Some "tok")
            (mount None (Some {[ "theme" := "dark" ]})) None "theme"))) _) _).
  - discriminate.
  - reflexivity.
Defined.

(** X3: A reload keeps the storage as it was, except that an empty stored
    token is erased; the token it hydrates is the stored one if that is
    non-empty, and null otherwise. *)
Theorem reload_keeps_storage (base : option string) (ls : gmap string string) :
  (ls !! TOKEN_STORAGE_KEY ≠ Some "" → window (mount base (Some ls)) = Some ls)
  ∧ (ls !! TOKEN_STORAGE_KEY = Some "" →
     window (mount base (Some ls)) = Some (delete TOKEN_STORAGE_KEY ls)
     ∧ authToken (mount base (Some ls)) = None)
  ∧ (∀ t, ls !! TOKEN_STORAGE_KEY = Some t → t ≠ "" →
     authToken (mount base (Some ls)) = Some t)
  ∧ (ls !! TOKEN_STORAGE_KEY = None → authToken (mount base (Some ls)) = None).
Proof.
  rewrite !mount_authToken. unfold mount, hydrate_effect. simpl.
  destruct (ls !! TOKEN_STORAGE_KEY) as [t|] eqn:Hls; simpl.
  - destruct (bool_decide (t ≠ "")) eqn:Ht.
    + apply bool_decide_eq_true in Ht.
      unfold setAuthToken. simpl.
      unfold sync_effect. simpl. rewrite bool_decide_eq_true_2 by done. simpl.
      rewrite insert_delete_eq, (insert_id ls _ _ Hls).
      split; [done|]. split; [intros [= ->]; done|]. split; [|done].
      by intros t' [= <-] _.
    + apply bool_decide_eq_false in Ht. apply dec_stable in Ht. subst t.
      unfold sync_effect, sync_clear. simpl.
      split; [done|]. split; [done|]. split; [|done]. by intros t' [= <-] Hne.
  - unfold sync_effect, sync_clear. simpl. rewrite (delete_id ls _ Hls).
    split; [done|]. split; [done|]. split; done.
Qed.

Lemma reload_keeps_storage_witness :
  window (mount None (Some {[ TOKEN_STORAGE_KEY := "tok"; "theme" := "dark" ]}))
  = Some {[ TOKEN_STORAGE_KEY := "tok"; "theme" := "dark" ]}.
Proof.
  refine (proj1 (reload_keeps_storage None
            {[ TOKEN_STORAGE_KEY := "tok"; "theme" := "dark" ]}) _).
  vm_compute. discriminate.
Defined.

(** X4: Through the pages themselves (a first mount, the login form
    whatever the server answers, the Logout button) the token the provider
    holds is never the empty string: it is null or a non-empty text. *)
Theorem visited_token_nonempty (base : option string) (p : Provider) :
  AuthPages.visited base p →
  authToken p ≠ Some "".
Proof.
  intros Hv.
  induction Hv as [w|response p Hv IHt|p Hv IHt].
  - rewrite mount_authToken. unfold hydrate_effect.
    destruct w as [ls|]; [|done]. destruct (ls !! TOKEN_STORAGE_KEY) as [t|]; [|done].
    simpl. case_bool_decide; naive_solver.
  - by apply login_submit_nonempty.
  - unfold logout. by rewrite setAuthToken_authToken.
Qed.

Lemma visited_token_nonempty_witness :
  authToken (AuthPages.login_submit (Ok (Some "")) (mount None (Some ∅))) ≠ Some "".
Proof.
  refine (visited_token_nonempty None
            (AuthPages.login_submit (Ok (Some "")) (mount None (Some ∅))) _).
  apply AuthPages.visit_login, AuthPages.visit_mount.
Defined.

End ProviderAlgebra.

(** ** The login and signup pages *)

Section AuthPagesProps.
Import Http ApiContext.

(** An element that differs from each member of a list literal is not in it. *)
Ltac not_in_literal :=
  let Hin := fresh "Hin" in
  intros Hin;
  repeat (apply elem_of_cons in Hin as [Hin|Hin]; [discriminate Hin|]);
  by apply elem_of_nil in Hin.

Lemma or_else_nonempty (v : option string) (d : string) :
  d ≠ "" → Js.or_else v d ≠ "".
Proof.
  intros Hd. unfold Js.or_else. destruct v as [s|]; [|done]. by case_bool_decide.
Qed.

Lemma or_else_detail (s d : string) : s ≠ "" → Js.or_else (Some s) d = s.
Proof. intros Hs. unfold Js.or_else. by rewrite bool_decide_eq_true_2. Qed.



(** X6: A submit of the signup form never logs anybody in: the provider is as
    before and [isLoading] is false; an accepted request ends in
    [router.push("/login")] without an error toast, a rejected one
    navigates nowhere and ends in an error toast with a non-empty message,
    the backend's [detail] where there is one. *)
Theorem signup_submit_outcome (server : Request → Result unit) (email password : string)
    (p : Provider) :
  AuthPages.provider (AuthPages.SignupPage_handleSubmit server email password p) = p
  ∧ AuthPages.isLoading (AuthPages.SignupPage_handleSubmit server email password p) = false
  ∧ (server (AuthPages.signup_request email password) = Ok tt →
       last (AuthPages.events (AuthPages.SignupPage_handleSubmit server email password p))
         = Some (AuthPages.RouterPush "/login")
       ∧ ∀ msg, AuthPages.ToastError msg
                ∉ AuthPages.events (AuthPages.SignupPage_handleSubmit server email password p))
  ∧ (∀ detail, server (AuthPages.signup_request email password) = Err detail →
       (∀ path,
          (AuthPages.RouterReplace path
             ∉ AuthPages.events (AuthPages.SignupPage_handleSubmit server email password p))
          ∧ (AuthPages.RouterPush path
             ∉ AuthPages.events (AuthPages.SignupPage_handleSubmit server email password p)))
       ∧ ∃ msg,
           last (AuthPages.events (AuthPages.SignupPage_handleSubmit server email password p))
             = Some (AuthPages.ToastError msg)
           ∧ msg ≠ ""
           ∧ (∀ d, detail = Some d → d ≠ "" → msg = d)
           ∧ (detail = None ∨ detail = Some "" → msg = "Sign up failed. Please try again.")).
Proof.
  unfold AuthPages.SignupPage_handleSubmit.
  destruct (server _) as [[]|detail] eqn:Hs; simpl.
  - split; [done|]. split; [done|]. split; [|done].
    intros _. split; [done|]. intros msg. not_in_literal.
  - split; [done|]. split; [done|]. split; [done|].
    intros d [= <-]. split; [intros path; split; not_in_literal|].
    eexists. split; [done|]. split; [by apply or_else_nonempty|]. split.
    + intros d -> Hd. by apply or_else_detail.
    + by intros [-> | ->].
Qed.

Lemma signup_submit_outcome_witness :
  last (AuthPages.events
          (AuthPages.SignupPage_handleSubmit (λ _, Ok tt) "a@b.c" "pw" (mount None None)))
  = Some (AuthPages.RouterPush "/login").
Proof.
  refine (proj1 (proj1 (proj2 (proj2 (signup_submit_outcome (λ _, Ok tt) "a@b.c" "pw"
            (mount None None)))) _)).
  reflexivity.
Defined.

(** X7: The guards of the pages never chase each other: for every value of the
    token exactly one side redirects.  Without a token (null or empty) the
    dashboard redirects to the login page, shows only its spinner and asks
    the server for nothing, and the login and signup pages stay; with a
    token those pages redirect to the dashboard, which stays, shows its
    content and loads the campaign list. *)
Theorem redirect_guards (env : Dashboard.Env) (a : Axios) (s : Dashboard.State)
    (tok : option string) :
  (tok = None ∨ tok = Some "" →
     Dashboard.redirect tok = Some "/login"
     ∧ AuthPages.redirect tok = None
     ∧ Dashboard.shows_spinner tok = true
     ∧ Dashboard.requests_of (Dashboard.load_effect env a tok) s = [])
  ∧ (∀ t, tok = Some t → t ≠ "" →
     Dashboard.redirect tok = None
     ∧ AuthPages.redirect tok = Some "/"
     ∧ Dashboard.shows_spinner tok = false
     ∧ Dashboard.requests_of (Dashboard.load_effect env a tok) s
       = [request a GET "/api/v1/campaigns/" ∅ NoBody]).
Proof.
  unfold Dashboard.redirect, AuthPages.redirect, Dashboard.shows_spinner,
    Dashboard.load_effect.
  split.
  - by intros [-> | ->].
  - intros t -> Ht. rewrite (truthy_Some_nonempty t Ht). simpl.
    repeat (split; [done|]).
    unfold Dashboard.requests_of, Dashboard.fetchCampaigns, Dashboard.bind,
      Dashboard.emit, Dashboard.setCampaigns, Dashboard.modify. simpl.
    by destruct (Dashboard.respond_list env _).
Qed.

Lemma redirect_guards_witness :
  Dashboard.redirect (Some "") = Some "/login" ∧ AuthPages.redirect (Some "tok") = Some "/".
Proof.
  split.
  - refine (proj1 (proj1 (redirect_guards Scenario.refusing Scenario.api
              Dashboard.initial (Some "")) _)).
    right. reflexivity.
  - refine (proj1 (proj2 (proj2 (redirect_guards Scenario.refusing Scenario.api
              Dashboard.initial (Some "tok")) "tok" _ _))).
    + reflexivity.
    + discriminate.
Defined.

End AuthPagesProps.

(** ** Numbers as text *)

Section NumberText.
Import Http Dashboard.

Lemma readDigits_uint_acc (d : Decimal.uint) (acc : positive) :
  Js.readDigits 10 (Some (Z.pos acc)) (NilEmpty.string_of_uint d)
  = Some (Z.pos (Pos.of_uint_acc d acc)).
Proof.
  revert acc. induction d as [|d IH|d IH|d IH|d IH|d IH|d IH|d IH|d IH|d IH|d IH];
    intros acc; [done|..];
    cbn [NilEmpty.string_of_uint Js.readDigits];
    match goal with
    | |- context [Js.digitValue 10 ?c] =>
        let v := eval vm_compute in (Js.digitValue 10 c) in
        change (Js.digitValue 10 c) with v
    end;
    cbn [default from_option Pos.of_uint_acc]; rewrite <- IH; do 2 f_equal;
    unfold id; lia.
Qed.

Lemma readDigits_uint_zero (d : Decimal.uint) :
  Js.readDigits 10 (Some 0) (NilEmpty.string_of_uint d)
  = Some (Z.of_N (Pos.of_uint d)).
Proof.
  induction d as [|d IH|d IH|d IH|d IH|d IH|d IH|d IH|d IH|d IH|d IH];
    [done| exact IH |..];
    cbn [NilEmpty.string_of_uint Js.readDigits];
    match goal with
    | |- context [Js.digitValue 10 ?c] =>
        let v := eval vm_compute in (Js.digitValue 10 c) in
        change (Js.digitValue 10 c) with v
    end;
    cbn [default from_option Pos.of_uint N.of_uint Z.of_N]; unfold id;
    apply readDigits_uint_acc.
Qed.

Lemma readDigits_uint (d : Decimal.uint) :
  d ≠ Decimal.Nil →
  Js.readDigits 10 None (NilEmpty.string_of_uint d) = Some (Z.of_N (Pos.of_uint d)).
Proof.
  intros Hd. rewrite <- readDigits_uint_zero. by destruct d.
Qed.

(** [parseInt] reads a decimal numeral as its value. *)
Lemma parseInt_uint (d : Decimal.uint) :
  d ≠ Decimal.Nil →
  Js.parseInt (NilEmpty.string_of_uint d) = Some (Z.of_N (Pos.of_uint d))
  ∧ Js.parseInt (String "-" (NilEmpty.string_of_uint d)) = Some (- Z.of_N (Pos.of_uint d)).
Proof.
  intros Hd. pose proof (readDigits_uint d Hd) as Hread.
  unfold Js.parseInt.
  destruct d as [|d|d|d|d|d|d|d|d|d|d]; [done|..];
    try (destruct d as [|d|d|d|d|d|d|d|d|d|d]);
    cbn [NilEmpty.string_of_uint Js.trimStart] in *;
    repeat match goal with
      | |- context [Js.isWhiteSpace ?c] =>
          let v := eval vm_compute in (Js.isWhiteSpace c) in
          change (Js.isWhiteSpace c) with v
      end;
    cbv iota beta; rewrite Hread; split; f_equal; lia.
Qed.

(** [parseInt(n.toString())] is [n]: the decimal text of an integer reads
    back as that integer. *)
Lemma parseInt_toString (n : Z) : Js.parseInt (Js.toString n) = Some n.
Proof.
  unfold Js.toString. destruct n as [|p|p]; [done|..]; simpl.
  - pose proof (DecimalPos.Unsigned.to_uint_nonnil p) as Hp.
    unfold NilZero.string_of_uint.
    destruct (Pos.to_uint p) eqn:E; [done|..];
      rewrite <- E in *; rewrite (proj1 (parseInt_uint _ Hp));
      by rewrite DecimalPos.Unsigned.of_to.
  - pose proof (DecimalPos.Unsigned.to_uint_nonnil p) as Hp.
    unfold NilZero.string_of_uint.
    destruct (Pos.to_uint p) eqn:E; [done|..];
      rewrite <- E in *; rewrite (proj2 (parseInt_uint _ Hp));
      by rewrite DecimalPos.Unsigned.of_to.
Qed.

Lemma append_cancel_l (pre x y : string) : pre +:+ x = pre +:+ y → x = y.
Proof.
  induction pre as [|c pre IH]; [done|].
  rewrite !append_cons. intros [= H]. auto.
Qed.

(** X8: While A/B testing is on and the variation count is a non-zero
    integer that JavaScript holds exactly (below 2^53 in size), the text the
    variation field displays is the text a create-campaign request sends
    as [num_variations], and a change event that carries this text leaves
    the whole state of the dashboard as it is; a change event with the
    text [0] sets the count to 2. *)
Theorem number_text_roundtrip (env : Env) (a : Axios) (s : State) (field : NumberInput) :
  numVariations_input s = Some field →
  - 2 ^ 53 < numVariations s < 2 ^ 53 →
  numVariations s ≠ 0 →
  multipart_parts "num_variations" <$> submitted env a s
    = Some [FText (Js.toString (value field))]
  ∧ state_after (numVariations_onChange (Js.toString (value field))) s = s
  ∧ numVariations (state_after (numVariations_onChange "0") s) = 2.
Proof.
  unfold numVariations_input. destruct (enableABTesting s); [|done].
  intros [= <-] _ Hn. cbn [value].
  split.
  { rewrite submitted_eq. unfold multipart_parts. simpl.
    by rewrite formData_num_variations. }
  split; [|done].
  unfold state_after, numVariations_onChange, setNumVariations, modify,
    Js.parseIntOr. simpl. rewrite parseInt_toString.
  destruct s as [? ? ? ? ? ? ? ? n]; simpl in *. by destruct n.
Qed.

Lemma number_text_roundtrip_witness :
  state_after (numVariations_onChange (Js.toString 5)) Scenario.five_variations
  = Scenario.five_variations.
Proof.
  refine (proj1 (proj2 (number_text_roundtrip Scenario.refusing Scenario.api
            Scenario.five_variations {| min := 2; max := 3; value := 5 |} _ _ _))).
  - reflexivity.
  - vm_compute. split; reflexivity.
  - vm_compute. discriminate.
Defined.

(** X9: The request that opens a campaign and the request that deletes one
    name exactly that campaign: two ids lead to the same request only if
    they are the same id. *)
Theorem requests_address_one_campaign (env : Env) (a : Axios) (s : State) (x y : Z) :
  (head (requests_of (fetchCampaignDetails env a x) s)
   = head (requests_of (fetchCampaignDetails env a y) s) → x = y)
  ∧ (confirm env "Are you sure you want to delete this campaign?" = true →
     head (requests_of (handleDeleteCampaign env a x) s)
     = head (requests_of (handleDeleteCampaign env a y) s) → x = y).
Proof.
  assert (Hinj : ∀ pre, pre +:+ Js.toString x = pre +:+ Js.toString y → x = y).
  { intros pre H. apply append_cancel_l in H.
    apply (f_equal Js.parseInt) in H. rewrite !parseInt_toString in H. by injection H. }
  split.
  - unfold requests_of, fetchCampaignDetails, bind, emit, setIsFetchingCampaign,
      setActiveCampaign, modify. simpl.
    destruct (respond_details env _), (respond_details env _); simpl;
      intros [= H]; by apply Hinj in H.
  - intros Hc. unfold requests_of, handleDeleteCampaign, bind, get, emit, ret,
      setCampaigns, setActiveCampaign, modify. simpl. rewrite Hc. simpl.
    destruct (respond env _), (respond env _); simpl;
      repeat match goal with
        | |- context [activeCampaign s] => destruct (activeCampaign s)
        | |- context [CampaignDetails.id ?c =? ?z] => destruct (CampaignDetails.id c =? z)
        end; simpl; intros [= H]; by apply Hinj in H.
Qed.

Lemma requests_address_one_campaign_witness :
  head (requests_of (fetchCampaignDetails Scenario.refusing Scenario.api 7) initial)
  ≠ head (requests_of (fetchCampaignDetails Scenario.refusing Scenario.api 9) initial).
Proof.
  intros H.
  pose proof (proj1 (requests_address_one_campaign Scenario.refusing Scenario.api
                initial 7 9) H) as Heq.
  discriminate Heq.
Defined.

End NumberText.

(** ** Downloads and exports *)

Section DownloadProps.
Import Http Dashboard.

Lemma append_assoc (x y z : string) : (x +:+ y) +:+ z = x +:+ (y +:+ z).
Proof.
  induction x as [|c x IH]; [done|]. by rewrite !append_cons, IH.
Qed.

Lemma append_empty_r (x : string) : x +:+ "" = x.
Proof. induction x as [|c x IH]; [done|]. by rewrite append_cons, IH. Qed.

Lemma split_nonempty (sep : ascii) (s : string) : Js.split sep s ≠ [].
Proof.
  destruct s as [|c s]; simpl; [done|].
  destruct (Ascii.eqb c sep); [done|]. by destruct (Js.split sep s).
Qed.

(** [split] and [join] are inverse: joining the pieces gives the text back. *)
Lemma join_split (sep : ascii) (s : string) : Js.join sep (Js.split sep s) = s.
Proof.
  induction s as [|c s IH]; [done|]. simpl.
  destruct (Ascii.eqb_spec c sep) as [->|Hc].
  - pose proof (split_nonempty sep s) as Hne.
    destruct (Js.split sep s) as [|piece rest]; [done|].
    change (Js.join sep ("" :: piece :: rest))
      with ("" +:+ String sep (Js.join sep (piece :: rest))).
    by rewrite IH.
  - pose proof (split_nonempty sep s) as Hne.
    destruct (Js.split sep s) as [|piece rest]; [done|].
    destruct rest as [|piece' rest]; simpl in *; [by rewrite IH|].
    by rewrite append_cons, IH.
Qed.

(** No piece contains the separator. *)
Lemma split_pieces (sep : ascii) (s : string) :
  Forall (λ piece, sep ∉ list_ascii_of_string piece) (Js.split sep s).
Proof.
  induction s as [|c s IH]; simpl.
  - constructor; [|constructor]. simpl. by intros ?%elem_of_nil.
  - destruct (Ascii.eqb_spec c sep) as [->|Hc].
    + constructor; [|done]. simpl. by intros ?%elem_of_nil.
    + pose proof (split_nonempty sep s) as Hne.
      destruct (Js.split sep s) as [|piece rest]; [done|].
      inversion_clear IH as [|? ? Hp Hrest]. constructor; [|done].
      simpl. intros [?|?]%elem_of_cons; [congruence | done].
Qed.

Lemma split_snoc_sep (sep : ascii) (r : string) :
  Js.split sep (r +:+ String sep "") = (Js.split sep r ++ [""])%list.
Proof.
  induction r as [|c r IH].
  - rewrite append_nil. simpl. by rewrite Ascii.eqb_refl.
  - rewrite append_cons. simpl. destruct (Ascii.eqb c sep); rewrite IH; [done|].
    pose proof (split_nonempty sep r) as Hne.
    by destruct (Js.split sep r) as [|piece rest].
Qed.

Lemma join_snoc (sep : ascii) (init : list string) (piece : string) :
  init ≠ [] →
  Js.join sep (init ++ [piece]) = (Js.join sep init +:+ String sep "") +:+ piece.
Proof.
  induction init as [|p init IH]; [done|]. intros _.
  destruct init as [|p' init].
  - simpl. by rewrite append_assoc.
  - change (Js.join sep ((p :: p' :: init) ++ [piece]))
      with (p +:+ String sep (Js.join sep ((p' :: init) ++ [piece]))).
    rewrite IH by done.
    change (Js.join sep (p :: p' :: init))
      with (p +:+ String sep (Js.join sep (p' :: init))).
    by rewrite !append_assoc, !append_cons.
Qed.

(** The last piece is what follows the last separator. *)
Lemma split_last (sep : ascii) (s : string) :
  ∃ pre piece,
    Js.pop (Js.split sep s) = Some piece
    ∧ s = pre +:+ piece
    ∧ (pre = "" ∨ ∃ r, pre = r +:+ String sep "")
    ∧ sep ∉ list_ascii_of_string piece.
Proof.
  pose proof (split_nonempty sep s) as Hne.
  pose proof (split_pieces sep s) as Hall.
  pose proof (join_split sep s) as Hjoin.
  revert Hne Hall Hjoin. generalize (Js.split sep s). intros pieces.
  destruct pieces as [|piece l _] using rev_ind; [done|]. intros _ Hall Hjoin.
  apply Forall_app in Hall as [_ Hpiece].
  inversion_clear Hpiece as [|? ? Hp _].
  destruct (decide (l = [])) as [->|Hl].
  - exists "", piece. simpl in Hjoin. unfold Js.pop. rewrite last_snoc.
    split; [done|]. split; [by rewrite append_nil|]. split; [by left | done].
  - exists (Js.join sep l +:+ String sep ""), piece. unfold Js.pop.
    rewrite last_snoc. rewrite join_snoc in Hjoin by done.
    split; [done|]. split; [done|]. split; [right; by eexists | done].
Qed.

(** The name under which an image is saved. *)
Lemma download_filename_props (imageUrl : string) :
  download_filename imageUrl ≠ ""
  ∧ ("/"%char ∉ list_ascii_of_string (download_filename imageUrl))
  ∧ (imageUrl = "" ∨ (∃ r, imageUrl = r +:+ "/") →
     download_filename imageUrl = "campaign-image.png")
  ∧ (imageUrl ≠ "" → (∀ r, imageUrl ≠ r +:+ "/") →
     ∃ pre, imageUrl = pre +:+ download_filename imageUrl
       ∧ (pre = "" ∨ ∃ r, pre = r +:+ "/")).
Proof.
  unfold download_filename.
  destruct (split_last "/" imageUrl) as (pre & piece & Hpop & Hurl & Hpre & Hpiece).
  rewrite Hpop. unfold Js.or_else. case_bool_decide as Hp.
  - split; [done|]. split; [done|]. split.
    + intros [-> | [r ->]].
      * by destruct pre, piece.
      * rewrite split_snoc_sep in Hpop. unfold Js.pop in Hpop.
        rewrite last_snoc in Hpop. by injection Hpop as <-.
    + intros _ _. exists pre. done.
  - subst piece. rewrite append_empty_r in Hurl. subst pre.
    split; [done|]. split.
    { vm_compute. intros Hin.
      repeat (apply elem_of_cons in Hin as [Hin|Hin]; [discriminate Hin|]).
      by apply elem_of_nil in Hin. }
    split; [done|].
    intros Hne Hslash. destruct Hpre as [-> | [r ->]]; [done|]. by destruct (Hslash r).
Qed.

(** X10: [handleDownload] fetches the resolved URL of the image without any
    credential, sends nothing through the shared instance and leaves the
    state alone.  A failed fetch saves nothing.  A successful one saves the
    image under a name that is never empty and contains no slash: what
    follows the last slash of the image URL, or the default name where
    nothing follows it. *)
Theorem image_download (API_URL : option string) (fetch_ok : Fetch → bool)
    (imageUrl : string) (s : State) :
  fetch_url (result_of (handleDownload API_URL fetch_ok imageUrl) s).1
    = resolveAssetUrl API_URL (Some imageUrl)
  ∧ fetch_headers (result_of (handleDownload API_URL fetch_ok imageUrl) s).1
      !! "Authorization" = None
  ∧ state_after (handleDownload API_URL fetch_ok imageUrl) s = s
  ∧ requests_of (handleDownload API_URL fetch_ok imageUrl) s = []
  ∧ (fetch_ok (result_of (handleDownload API_URL fetch_ok imageUrl) s).1 = false →
     (result_of (handleDownload API_URL fetch_ok imageUrl) s).2 = None)
  ∧ (fetch_ok (result_of (handleDownload API_URL fetch_ok imageUrl) s).1 = true →
     ∃ name,
       (result_of (handleDownload API_URL fetch_ok imageUrl) s).2 = Some name
       ∧ name ≠ ""
       ∧ ("/"%char ∉ list_ascii_of_string name)
       ∧ (imageUrl = "" ∨ (∃ r, imageUrl = r +:+ "/") → name = "campaign-image.png")
       ∧ (imageUrl ≠ "" → (∀ r, imageUrl ≠ r +:+ "/") →
          ∃ pre, imageUrl = pre +:+ name ∧ (pre = "" ∨ ∃ r, pre = r +:+ "/"))).
Proof.
  unfold result_of, state_after, requests_of, handleDownload, bind, emit, ret.
  destruct (fetch_ok _) eqn:Hok; cbn -[resolveAssetUrl]; rewrite ?Hok;
    (split; [done|]); (split; [done|]); (split; [by destruct s|]);
    (split; [done|]); (split; [done|]); [|done].
  intros _. exists (download_filename imageUrl). split; [done|].
  apply download_filename_props.
Qed.

Lemma image_download_witness :
  ∃ name,
    (result_of (handleDownload (Some "http://127.0.0.1:8000") (λ _, true)
                  "/static/images/instagram_0.png") initial).2 = Some name
    ∧ name ≠ "".
Proof.
  destruct (proj2 (proj2 (proj2 (proj2 (proj2
    (image_download (Some "http://127.0.0.1:8000") (λ _, true)
       "/static/images/instagram_0.png" initial))))) eq_refl)
    as (name & Hname & Hne & _).
  exists name. split; [exact Hname | exact Hne].
Defined.

(** X11: [handleBatchExport] fetches the export of the campaign with an
    [Authorization] header built from the context's token: for a logged-in
    provider it is the very header the shared instance sends; for a null
    token it reads ['Bearer null'].  Nothing goes through the shared
    instance and the state is left alone.  A failed fetch saves nothing; a
    successful one saves under a name that ends in ['_assets.zip'] after a
    non-empty stem: the active campaign's product name, or ['campaign']
    where there is none or it is empty. *)
Theorem export_request (base API_URL : option string) (fetch_ok : Fetch → bool)
    (p : ApiContext.Provider) (campaignId : Z) (s : State) :
  fetch_url (result_of (handleBatchExport API_URL fetch_ok (ApiContext.authToken p)
                          campaignId) s).1
    = Js.template API_URL +:+ "/api/v1/assets/export/" +:+ Js.toString campaignId
  ∧ (ApiContext.reachable base p →
     ∀ t, ApiContext.authToken p = Some t → t ≠ "" →
       fetch_headers (result_of (handleBatchExport API_URL fetch_ok
                                   (ApiContext.authToken p) campaignId) s).1
         !! "Authorization"
       = defaults_headers_common (ApiContext.api p) !! "Authorization")
  ∧ (ApiContext.authToken p = None →
     fetch_headers (result_of (handleBatchExport API_URL fetch_ok
                                 (ApiContext.authToken p) campaignId) s).1
       !! "Authorization" = Some "Bearer null")
  ∧ state_after (handleBatchExport API_URL fetch_ok (ApiContext.authToken p) campaignId) s
    = s
  ∧ requests_of (handleBatchExport API_URL fetch_ok (ApiContext.authToken p) campaignId) s
    = []
  ∧ (fetch_ok (result_of (handleBatchExport API_URL fetch_ok (ApiContext.authToken p)
                            campaignId) s).1 = false →
     (result_of (handleBatchExport API_URL fetch_ok (ApiContext.authToken p)
                   campaignId) s).2 = None)
  ∧ (fetch_ok (result_of (handleBatchExport API_URL fetch_ok (ApiContext.authToken p)
                            campaignId) s).1 = true →
     ∃ stem,
       (result_of (handleBatchExport API_URL fetch_ok (ApiContext.authToken p)
                     campaignId) s).2 = Some (stem +:+ "_assets.zip")
       ∧ stem ≠ ""
       ∧ (∀ c, activeCampaign s = Some c → CampaignDetails.product_name c ≠ "" →
            stem = CampaignDetails.product_name c)
       ∧ (activeCampaign s = None
          ∨ (∃ c, activeCampaign s = Some c ∧ CampaignDetails.product_name c = "") →
            stem = "campaign")).
Proof.
  unfold result_of, state_after, requests_of, handleBatchExport, bind, get, emit, ret.
  simpl. destruct (fetch_ok _) eqn:Hok; simpl; rewrite ?Hok;
    (split; [done|]);
    (split; [intros Hreach t Ht Hne;
             destruct (reachable_synced _ _ Hreach) as [Hhdr _];
             rewrite Hhdr, (credential_Some _ _ Ht Hne), Ht; simpl;
             by rewrite lookup_singleton_eq|]);
    (split; [by intros ->|]); (split; [by destruct s|]);
    (split; [done|]); (split; [done|]); [|done].
  intros _. eexists. split; [done|]. split; [by apply or_else_nonempty|]. split.
  - intros c -> Hc. simpl. by apply or_else_detail.
  - intros [-> | (c & -> & Hc)]; simpl; [done|]. rewrite Hc. done.
Qed.

Lemma export_request_witness :
  fetch_headers (result_of (handleBatchExport None (λ _, true) (Some "tok") 7)
                   Scenario.two_campaigns).1 !! "Authorization"
  = Some "Bearer tok".
Proof.
  refine (eq_trans (proj1 (proj2 (export_request None None (λ _, true)
            (ApiContext.login "tok" (ApiContext.mount None (Some ∅)))
            7 Scenario.two_campaigns)) _ "tok" _ _) _).
  - apply ApiContext.reach_login, ApiContext.reach_mount.
  - reflexivity.
  - discriminate.
  - reflexivity.
Defined.

(** X12: With an API base that is itself an absolute URL, what
    [resolveAssetUrl] returns is empty or absolute, and resolving it once
    more changes nothing. *)
Theorem resolveAssetUrl_absolute (API_URL : option string) (base : string)
    (path : option string) :
  API_URL = Some base →
  Js.startsWith base "http" = true →
  (resolveAssetUrl API_URL path = ""
   ∨ Js.startsWith (resolveAssetUrl API_URL path) "http" = true)
  ∧ resolveAssetUrl API_URL (Some (resolveAssetUrl API_URL path))
    = resolveAssetUrl API_URL path.
Proof.
  intros -> Hbase.
  assert (Hfix : ∀ u, u = "" ∨ Js.startsWith u "http" = true →
            resolveAssetUrl (Some base) (Some u) = u).
  { intros u [-> | Hu]; [done|]. unfold resolveAssetUrl. rewrite Hu.
    by destruct u. }
  assert (Habs : resolveAssetUrl (Some base) path = ""
                 ∨ Js.startsWith (resolveAssetUrl (Some base) path) "http" = true).
  { unfold resolveAssetUrl. destruct path as [p|]; [|by left].
    destruct (Js.truthy (Some p)); simpl; [|by left].
    destruct (Js.startsWith p "http") eqn:Hp; [by right|]. right.
    apply startsWith_spec in Hbase as [r ->]. apply startsWith_spec.
    exists (r +:+ p). by rewrite append_assoc. }
  split; [done|]. by apply Hfix.
Qed.

Lemma resolveAssetUrl_absolute_witness :
  resolveAssetUrl (Some "http://127.0.0.1:8000")
    (Some (resolveAssetUrl (Some "http://127.0.0.1:8000") (Some "/static/a.png")))
  = resolveAssetUrl (Some "http://127.0.0.1:8000") (Some "/static/a.png").
Proof.
  refine (proj2 (resolveAssetUrl_absolute (Some "http://127.0.0.1:8000")
            "http://127.0.0.1:8000" (Some "/static/a.png") _ _)); reflexivity.
Defined.

(** X13: The two "compare with original" buttons build the URL of the original
    photo differently.  Both offer nothing for a missing or empty
    [original_image_url] and agree on a relative one (API base followed by
    the path); for an absolute one the main image uses it as it is, while
    the A/B card still puts the API base in front of it. *)
Theorem original_photo_url (API_URL : option string) (img : GeneratedImage.t) :
  (GeneratedImage.original_image_url img = None
   ∨ GeneratedImage.original_image_url img = Some "" →
     card_originalUrl API_URL img = None ∧ main_originalUrl API_URL img = None)
  ∧ (∀ u, GeneratedImage.original_image_url img = Some u → u ≠ "" →
       Js.startsWith u "http" = false →
       card_originalUrl API_URL img = Some (Js.template API_URL +:+ u)
       ∧ main_originalUrl API_URL img = Some (Js.template API_URL +:+ u))
  ∧ (∀ u, GeneratedImage.original_image_url img = Some u →
       Js.startsWith u "http" = true →
       card_originalUrl API_URL img = Some (Js.template API_URL +:+ u)
       ∧ main_originalUrl API_URL img = Some u).
Proof.
  unfold card_originalUrl, main_originalUrl, resolveAssetUrl, Js.nonEmpty.
  split; [by intros [-> | ->]|]. split.
  - intros u -> Hu Hrel. simpl. by rewrite bool_decide_eq_true_2, Hrel.
  - intros u -> Habs. assert (u ≠ "") by (intros ->; discriminate).
    simpl. by rewrite bool_decide_eq_true_2, Habs.
Qed.

Lemma original_photo_url_witness :
  main_originalUrl (Some "http://127.0.0.1:8000")
    (Scenario.image 1 "Instagram" None) = None.
Proof.
  refine (proj2 (proj1 (original_photo_url (Some "http://127.0.0.1:8000")
            (Scenario.image 1 "Instagram" None)) _)).
  left. reflexivity.
Defined.

End DownloadProps.

(** ** Images, scores and the product name *)

Section PreviewProps.
Import Http Dashboard.

(** X14: A better score never gets a worse colour: above an emerald score
    everything is emerald, below a rose score everything is rose, and
    nothing above a yellow score is rose; only a missing score is slate. *)
Theorem scoreColor_monotone (x y : QArith_base.Q) :
  QArith_base.Qle x y →
  (scoreColor (Some x) = "text-emerald-400" → scoreColor (Some y) = "text-emerald-400")
  ∧ (scoreColor (Some y) = "text-rose-400" → scoreColor (Some x) = "text-rose-400")
  ∧ (scoreColor (Some x) = "text-yellow-400" → scoreColor (Some y) ≠ "text-rose-400")
  ∧ scoreColor None = "text-slate-200"
  ∧ scoreColor (Some x) ≠ "text-slate-200".
Proof.
  intros Hxy. unfold scoreColor.
  destruct (QArith_base.Qle_bool (QArith_base.inject_Z 8) x) eqn:H8x;
    destruct (QArith_base.Qle_bool (QArith_base.inject_Z 5) x) eqn:H5x;
    destruct (QArith_base.Qle_bool (QArith_base.inject_Z 8) y) eqn:H8y;
    destruct (QArith_base.Qle_bool (QArith_base.inject_Z 5) y) eqn:H5y;
    repeat split; try done;
    exfalso;
    repeat match goal with
      | H : QArith_base.Qle_bool _ _ = true |- _ => apply QArith_base.Qle_bool_iff in H
      | H : QArith_base.Qle_bool _ _ = false |- _ =>
          apply not_true_iff_false in H; rewrite QArith_base.Qle_bool_iff in H
      end;
    eauto using QArith_base.Qle_trans.
Qed.

Lemma scoreColor_monotone_witness :
  scoreColor (Some (QArith_base.inject_Z 9)) = "text-emerald-400".
Proof.
  refine (proj1 (scoreColor_monotone (QArith_base.inject_Z 8) (QArith_base.inject_Z 9) _) _).
  - vm_compute. discriminate.
  - reflexivity.
Defined.

Lemma filter_sublist {A} (f : A → bool) (l : list A) : sublist (List.filter f l) l.
Proof.
  induction l as [|x l IH]; simpl; [constructor|].
  destruct (f x); by constructor.
Qed.

Lemma elem_of_findImagesByPlatform (s : State) (p : string) (img : GeneratedImage.t) :
  img ∈ findImagesByPlatform s p
  ↔ ∃ c, activeCampaign s = Some c
      ∧ img ∈ CampaignDetails.images c ∧ GeneratedImage.platform img = p.
Proof.
  unfold findImagesByPlatform. destruct (activeCampaign s) as [c|].
  - rewrite list_elem_of_In, List.filter_In, <- list_elem_of_In, bool_decide_eq_true.
    split; [intros [? ?]; by exists c | intros (c' & [= <-] & ? & ?); done].
  - split; [by intros ?%elem_of_nil | by intros (c & ? & _)].
Qed.

Lemma findImage_elem_of (s : State) (p : string) (v : option Z) (img : GeneratedImage.t) :
  findImage s p v = Some img → img ∈ findImagesByPlatform s p.
Proof.
  intros Hfind. apply elem_of_findImagesByPlatform. unfold findImage in Hfind.
  destruct (activeCampaign s) as [c|]; [|done]. exists c. split; [done|].
  apply List.find_some in Hfind as [Hin Hf]. apply andb_true_iff in Hf as [Hp _].
  apply bool_decide_eq_true in Hp. by rewrite list_elem_of_In.
Qed.

(** X15: The images shown on a platform tab are exactly the images of the
    active campaign for that platform, in the order of the campaign; none
    without an active campaign.  Whatever [findImage] finds for the
    platform is among them, and they are never more than the "assets in
    current view" count of the stats. *)
Theorem findImagesByPlatform_spec (s : State) (p : string) :
  (∀ img, img ∈ findImagesByPlatform s p
          ↔ ∃ c, activeCampaign s = Some c
              ∧ img ∈ CampaignDetails.images c ∧ GeneratedImage.platform img = p)
  ∧ (activeCampaign s = None → findImagesByPlatform s p = [])
  ∧ (∀ c, activeCampaign s = Some c →
       sublist (findImagesByPlatform s p) (CampaignDetails.images c))
  ∧ (∀ v img, findImage s p v = Some img → img ∈ findImagesByPlatform s p)
  ∧ (length (findImagesByPlatform s p) ≤ totalImages (stats s))%nat.
Proof.
  split; [intros img; apply elem_of_findImagesByPlatform|].
  split; [by unfold findImagesByPlatform; intros ->|]. split.
  { intros c Hc. unfold findImagesByPlatform. rewrite Hc. apply filter_sublist. }
  split; [intros v img; apply findImage_elem_of|].
  unfold findImagesByPlatform, stats. simpl.
  destruct (activeCampaign s) as [c|]; [|done].
  apply sublist_length, filter_sublist.
Qed.

Lemma findImagesByPlatform_spec_witness :
  Scenario.image 1 "Instagram" None
    ∈ findImagesByPlatform Scenario.two_campaigns "Instagram".
Proof.
  refine (proj1 (proj2 (proj2 (proj2 (findImagesByPlatform_spec
            Scenario.two_campaigns "Instagram")))) None _ _).
  reflexivity.
Defined.

(** X16: The A/B panel of a tab is shown exactly when the platform has at least
    two images.  Where it is not shown and the tab has a main image, that
    image is the platform's only image. *)
Theorem single_image_is_main (s : State) (p : string) (img : GeneratedImage.t) :
  (hasVariations s p = true ↔ (2 ≤ length (findImagesByPlatform s p))%nat)
  ∧ (hasVariations s p = false → findImage s p (Some 0) = Some img →
     findImagesByPlatform s p = [img]).
Proof.
  unfold hasVariations. split; [by rewrite Nat.ltb_lt|].
  intros Hlen Hfind. apply Nat.ltb_ge in Hlen.
  apply findImage_elem_of in Hfind.
  destruct (findImagesByPlatform s p) as [|x [|y l]]; simpl in Hlen.
  - by apply elem_of_nil in Hfind.
  - apply list_elem_of_singleton in Hfind. by subst.
  - lia.
Qed.

Lemma single_image_is_main_witness :
  findImagesByPlatform
    (state_after (setActiveCampaign
       (Some (Scenario.details 7 [Scenario.image 1 "Instagram" None]))) initial)
    "Instagram"
  = [Scenario.image 1 "Instagram" None].
Proof.
  refine (proj2 (single_image_is_main _ "Instagram" (Scenario.image 1 "Instagram" None))
            _ _); reflexivity.
Defined.

Lemma trimStart_id (s : string) :
  match s with
  | String c _ => Js.isWhiteSpace c = false
  | EmptyString => True
  end → Js.trimStart s = s.
Proof. destruct s as [|c s]; [done|]. simpl. by intros ->. Qed.

Lemma trimEnd_id (s : string) :
  (∀ r c, s = r +:+ String c "" → Js.isWhiteSpace c = false) → Js.trimEnd s = s.
Proof.
  induction s as [|c s IH]; [done|]. intros Hlast. simpl.
  rewrite IH.
  - destruct s as [|d s]; [|done]. by rewrite (Hlast "" c).
  - intros r d ->. apply (Hlast (String c r) d). by rewrite append_cons.
Qed.

Lemma trim_idempotent (s : string) : Js.trim (Js.trim s) = Js.trim s.
Proof.
  destruct (trim_spec s) as (pre & post & _ & _ & _ & Hhd & Hlast).
  unfold Js.trim at 1. rewrite (trimStart_id _ Hhd). by apply trimEnd_id.
Qed.

(** X17: A product name that goes out with a create-campaign request is clean:
    it is not empty, neither its first nor its last character is white
    space, and trimming it again gives the same name. *)
Theorem product_name_sent_clean (env : Env) (a : Axios) (s : State) (r : Request)
    (v : FormValue) :
  submitted env a s = Some r →
  v ∈ multipart_parts "product_name" r →
  ∃ name, v = FText name
    ∧ name ≠ ""
    ∧ Js.trim name = name
    ∧ (∀ c rest, name = String c rest → Js.isWhiteSpace c = false)
    ∧ (∀ rest c, name = rest +:+ String c "" → Js.isWhiteSpace c = false).
Proof.
  rewrite submitted_eq. intros [= <-]. unfold multipart_parts. simpl.
  rewrite formData_product_name. unfold Js.nonEmpty. case_bool_decide as Hname.
  - intros ->%list_elem_of_singleton. exists (Js.trim (productName s)).
    split; [done|]. split; [done|]. split; [apply trim_idempotent|].
    destruct (trim_spec (productName s)) as (pre & post & _ & _ & _ & Hhd & Hlast).
    split; [|done]. intros c rest Heq. by rewrite Heq in Hhd.
  - by intros ?%elem_of_nil.
Qed.

Lemma product_name_sent_clean_witness :
  ∃ name, FText "Widget" = FText name ∧ name ≠ "" ∧ Js.trim name = name.
Proof.
  destruct (product_name_sent_clean Scenario.refusing Scenario.api Scenario.two_campaigns
              _ (FText "Widget") (submitted_eq _ _ _)) as (name & Hv & Hne & Htrim & _).
  - vm_compute. repeat constructor.
  - exists name. split; [exact Hv|]. split; [exact Hne | exact Htrim].
Defined.

(** X18: Choosing a winner posts exactly [image_id] and [is_selected]; the check
    mark of a card sends the opposite of the card's current flag (a missing
    flag counts as not selected).  A rejected choice sends nothing more and
    changes nothing; an accepted one reloads the active campaign, if there
    is one.  The campaign list is never touched. *)
Theorem select_winner_request (env : Env) (a : Axios) (imageId : Z) (isSelected : bool)
    (img : GeneratedImage.t) (s : State) :
  head (requests_of (handleSelectABWinner env a imageId isSelected) s)
    = Some (request a POST "/api/v1/assets/ab-test/select" ∅
              (JsonBody [("image_id", JNum imageId); ("is_selected", JBool isSelected)]))
  ∧ head (requests_of (card_select_onClick env a img) s)
    = Some (request a POST "/api/v1/assets/ab-test/select" ∅
              (JsonBody [("image_id", JNum (GeneratedImage.id img));
                         ("is_selected",
                          JBool (negb (default false (GeneratedImage.is_selected img))))]))
  ∧ (∀ detail,
       respond env (request a POST "/api/v1/assets/ab-test/select" ∅
                      (JsonBody [("image_id", JNum imageId);
                                 ("is_selected", JBool isSelected)])) = Err detail →
       tail (requests_of (handleSelectABWinner env a imageId isSelected) s) = []
       ∧ state_after (handleSelectABWinner env a imageId isSelected) s = s)
  ∧ (respond env (request a POST "/api/v1/assets/ab-test/select" ∅
                    (JsonBody [("image_id", JNum imageId);
                               ("is_selected", JBool isSelected)])) = Ok tt →
       tail (requests_of (handleSelectABWinner env a imageId isSelected) s)
       = match activeCampaign s with
         | Some c =>
             [request a GET ("/api/v1/campaigns/" +:+ Js.toString (CampaignDetails.id c))
                ∅ NoBody]
         | None => []
         end)
  ∧ campaigns (state_after (handleSelectABWinner env a imageId isSelected) s)
    = campaigns s.
Proof.
  unfold card_select_onClick, card_isSelected.
  unfold requests_of, state_after, handleSelectABWinner, fetchCampaignDetails, bind, get,
    emit, ret, setIsFetchingCampaign, setActiveCampaign, modify. simpl.
  split.
  { destruct (respond env _); simpl; [|done].
    destruct (activeCampaign s); simpl; [|done]. by destruct (respond_details env _). }
  split.
  { destruct (respond env _); simpl; [|done].
    destruct (activeCampaign s); simpl; [|done]. by destruct (respond_details env _). }
  split.
  { intros detail ->. simpl. by destruct s. }
  split.
  { intros ->. simpl. destruct (activeCampaign s); simpl; [|done].
    by destruct (respond_details env _). }
  destruct (respond env _); simpl; [|done].
  destruct (activeCampaign s); simpl; [|done]. by destruct (respond_details env _).
Qed.

Lemma select_winner_request_witness :
  state_after (handleSelectABWinner Scenario.refusing Scenario.api 2 true)
    Scenario.two_campaigns = Scenario.two_campaigns.
Proof.
  refine (proj2 (proj1 (proj2 (proj2 (select_winner_request Scenario.refusing
            Scenario.api 2 true (Scenario.image 2 "Instagram" (Some 1))
            Scenario.two_campaigns))) None _)).
  reflexivity.
Defined.

End PreviewProps.

(** ** Handlers and sessions *)

Section SessionProps.
Import Http Dashboard.

(** Unfolds a handler down to the answers of the outside world, then
    splits on those answers. *)
Ltac unfold_handlers :=
  unfold state_after, result_of, requests_of, handle, handleDeleteActiveCampaign,
    handleDeleteCampaign, handleRegenerateImage, handleSelectABWinner, handleSubmit,
    fetchCampaignDetails, fetchCampaigns, bind, get, emit, ret, setCampaigns,
    setActiveCampaign, setIsGenerating, setIsFetchingCampaign, modify.

Ltac case_answers :=
  repeat (simpl;
    match goal with
    | |- context [confirm ?e ?m] => destruct (confirm e m) eqn:?
    | |- context [respond ?e ?r] => destruct (respond e r) eqn:?
    | |- context [respond_list ?e ?r] => destruct (respond_list e r) eqn:?
    | |- context [respond_details ?e ?r] => destruct (respond_details e r) eqn:?
    | |- context [match activeCampaign ?s with _ => _ end] =>
        destruct (activeCampaign s) eqn:?
    | |- context [CampaignDetails.id ?c =? ?z] =>
        destruct (CampaignDetails.id c =? z) eqn:?
    end); simpl.

(** What holds at the start of a session and survives every action holds
    at its end. *)
Lemma session_invariant (I : State → Prop) (a : Axios) :
  (∀ x w, I (ui w) → I (ui (act a x w).2)) →
  ∀ actions w, I (ui w) → I (ui (session a actions w).2).
Proof.
  intros Hact actions. induction actions as [|x actions IH]; intros w Hw; [done|].
  simpl. unfold bind. specialize (Hact x w Hw).
  destruct (act a x w) as [[] w']. by apply IH.
Qed.

Lemma handle_form (env : Env) (a : Axios) (i : Interaction) (w : World) :
  form (ui (handle env a i w).2) = form (ui w).
Proof.
  unfold form. destruct i; unfold_handlers; case_answers; done.
Qed.

Lemma handle_flags (env : Env) (a : Axios) (i : Interaction) (w : World) :
  (isFetchingCampaign (ui w) = false → isFetchingCampaign (ui (handle env a i w).2) = false)
  ∧ (isGenerating (ui w) = false → isGenerating (ui (handle env a i w).2) = false).
Proof.
  destruct i; unfold_handlers; case_answers; done.
Qed.

Lemma edit_flags_data (e : FormEdit) (w : World) :
  isFetchingCampaign (ui (edit e w).2) = isFetchingCampaign (ui w)
  ∧ isGenerating (ui (edit e w).2) = isGenerating (ui w)
  ∧ data (ui (edit e w).2) = data (ui w).
Proof.
  destruct e as [v|v|target|fileInput|b|v]; simpl; try done.
  unfold productImage_onChange, bind, ret, emit, setProductImage, modify.
  destruct (head (files target)) as [f|]; simpl; [|done].
  by destruct (10 * 1024 * 1024 <? size f).
Qed.

(** X19: The busy flags are always released: after opening a campaign
    [isFetchingCampaign] is false and after a submit [isGenerating] is
    false, whatever the server answered; no interaction leaves a flag set
    that was not set before; so after any session that started on the
    fresh page neither flag is set. *)
Theorem busy_flags_released (env : Env) (a : Axios) (campaignId : Z) (i : Interaction)
    (actions : list Action) (s : State) :
  isFetchingCampaign (state_after (fetchCampaignDetails env a campaignId) s) = false
  ∧ isGenerating (state_after (handleSubmit env a) s) = false
  ∧ (isFetchingCampaign s = false →
     isFetchingCampaign (state_after (handle env a i) s) = false)
  ∧ (isGenerating s = false → isGenerating (state_after (handle env a i) s) = false)
  ∧ isFetchingCampaign (state_after (session a actions) initial) = false
  ∧ isGenerating (state_after (session a actions) initial) = false.
Proof.
  split; [unfold_handlers; by case_answers|].
  split; [unfold_handlers; by case_answers|].
  split; [apply (handle_flags env a i {| ui := s; log := [] |})|].
  split; [apply (handle_flags env a i {| ui := s; log := [] |})|].
  apply (session_invariant
    (λ s, isFetchingCampaign s = false ∧ isGenerating s = false) a); [|done].
  intros [e|env' i'] w [Hf Hg]; simpl.
  - destruct (edit_flags_data e w) as (-> & -> & _). done.
  - destruct (handle_flags env' a i' w). auto.
Qed.

Lemma busy_flags_released_witness :
  isGenerating (state_after (handle Scenario.refusing Scenario.api Submit)
                  Scenario.two_campaigns) = false.
Proof.
  refine (proj1 (proj2 (proj2 (proj2 (busy_flags_released Scenario.refusing Scenario.api
            7 Submit [] Scenario.two_campaigns)))) _).
  reflexivity.
Defined.

(** X20: Talking to the server never edits the form: after any interaction,
    even a successful submit, the URL, the product name, the chosen file,
    the A/B switch and the variation count are as they were. *)
Theorem interactions_keep_form (env : Env) (a : Axios) (i : Interaction) (s : State) :
  url (state_after (handle env a i) s) = url s
  ∧ productName (state_after (handle env a i) s) = productName s
  ∧ productImage (state_after (handle env a i) s) = productImage s
  ∧ enableABTesting (state_after (handle env a i) s) = enableABTesting s
  ∧ numVariations (state_after (handle env a i) s) = numVariations s.
Proof.
  pose proof (handle_form env a i {| ui := s; log := [] |}) as H.
  unfold form in H. simpl in H. unfold state_after. by injection H as -> -> -> -> ->.
Qed.

(** X21: A server that rejects everything changes nothing the page shows: after
    any interaction the campaign list and the active campaign are as they
    were, and so is the form. *)
Theorem rejected_requests_change_nothing (env : Env) (a : Axios) (i : Interaction)
    (s : State) :
  (∀ r, ∃ detail, respond env r = Err detail) →
  (∀ r, ∃ detail, respond_list env r = Err detail) →
  (∀ r, ∃ detail, respond_details env r = Err detail) →
  campaigns (state_after (handle env a i) s) = campaigns s
  ∧ activeCampaign (state_after (handle env a i) s) = activeCampaign s
  ∧ form (state_after (handle env a i) s) = form s.
Proof.
  intros H1 H2 H3. split; [|split; [|apply (handle_form env a i {| ui := s; log := [] |})]].
  - destruct i; unfold_handlers; case_answers; try done;
      repeat match goal with
        | H : respond env ?r = Ok _ |- _ => destruct (H1 r) as [? ?]; congruence
        | H : respond_list env ?r = Ok _ |- _ => destruct (H2 r) as [? ?]; congruence
        | H : respond_details env ?r = Ok _ |- _ => destruct (H3 r) as [? ?]; congruence
        end.
  - destruct i; unfold_handlers; case_answers; try done;
      repeat match goal with
        | H : respond env ?r = Ok _ |- _ => destruct (H1 r) as [? ?]; congruence
        | H : respond_list env ?r = Ok _ |- _ => destruct (H2 r) as [? ?]; congruence
        | H : respond_details env ?r = Ok _ |- _ => destruct (H3 r) as [? ?]; congruence
        end.
Qed.

Lemma rejected_requests_change_nothing_witness :
  campaigns (state_after (handle Scenario.refusing Scenario.api (DeleteCampaign 7))
               Scenario.two_campaigns) = campaigns Scenario.two_campaigns.
Proof.
  refine (proj1 (rejected_requests_change_nothing Scenario.refusing Scenario.api
            (DeleteCampaign 7) Scenario.two_campaigns _ _ _));
    intros r; exists None; reflexivity.
Defined.

Lemma parseIntOr_nonzero (text : string) (d : Z) : d ≠ 0 → Js.parseIntOr text d ≠ 0.
Proof. intros Hd. unfold Js.parseIntOr. by destruct (Js.parseInt text) as [[| |]|]. Qed.

Lemma edit_keeps_form_invariant (e : FormEdit) (w : World) :
  ((∀ f, productImage (ui w) = Some f → size f ≤ 10 * 1024 * 1024)
   ∧ numVariations (ui w) ≠ 0) →
  (∀ f, productImage (ui (edit e w).2) = Some f → size f ≤ 10 * 1024 * 1024)
  ∧ numVariations (ui (edit e w).2) ≠ 0.
Proof.
  intros [Hfile Hnum]. destruct e as [v|v|target|fileInput|b|v]; simpl; try done.
  - unfold productImage_onChange, bind, ret, emit, setProductImage, modify.
    destruct (head (files target)) as [f|]; simpl; [|done].
    destruct (10 * 1024 * 1024 <? size f) eqn:Hsize; simpl; [done|].
    split; [|done]. intros f' [= <-]. by apply Z.ltb_ge in Hsize.
  - split; [done|]. by apply parseIntOr_nonzero.
Qed.

(** X22: Whatever the user does from the fresh page on, in any order and with
    any answers of the server, the form never holds a file of more than
    10 MiB nor a variation count of zero; so no create-campaign request
    carries such a file or [num_variations] 0.  And once the Remove button
    has been used, the next request carries no file at all. *)
Theorem session_form_invariant (env : Env) (a : Axios) (actions : list Action)
    (fileInput : option FileInput) (r : Request) :
  (∀ f, productImage (state_after (session a actions) initial) = Some f →
     size f ≤ 10 * 1024 * 1024)
  ∧ numVariations (state_after (session a actions) initial) ≠ 0
  ∧ (submitted env a (state_after (session a actions) initial) = Some r →
     (∀ f, FFile f ∈ multipart_parts "product_image" r → size f ≤ 10 * 1024 * 1024)
     ∧ FText "0" ∉ multipart_parts "num_variations" r)
  ∧ multipart_parts "product_image"
      <$> submitted env a
            (state_after (edit (RemoveFile fileInput))
               (state_after (session a actions) initial))
    = Some [].
Proof.
  assert (Hinv : (∀ f, productImage (state_after (session a actions) initial) = Some f →
                    size f ≤ 10 * 1024 * 1024)
                 ∧ numVariations (state_after (session a actions) initial) ≠ 0).
  { apply (session_invariant
      (λ s, (∀ f, productImage s = Some f → size f ≤ 10 * 1024 * 1024)
            ∧ numVariations s ≠ 0) a); [|done].
    intros [e|env' i'] w Hw; simpl.
    - by apply edit_keeps_form_invariant.
    - pose proof (handle_form env' a i' w) as Hform. unfold form in Hform.
      injection Hform as _ _ -> _ ->. done. }
  destruct Hinv as [Hfile Hnum]. split; [done|]. split; [done|]. split.
  - rewrite submitted_eq. intros [= <-]. unfold multipart_parts. simpl.
    rewrite formData_product_image, formData_num_variations. split.
    + intros f Hf. destruct (productImage _) as [f'|] eqn:Hp.
      * apply list_elem_of_singleton in Hf as [= ->]. by apply Hfile.
      * by apply elem_of_nil in Hf.
    + intros [= Hzero]%list_elem_of_singleton. apply Hnum.
      change "0" with (Js.toString 0) in Hzero.
      apply (f_equal Js.parseInt) in Hzero. rewrite !parseInt_toString in Hzero.
      by injection Hzero.
  - rewrite submitted_eq. unfold multipart_parts. simpl.
    by rewrite formData_product_image.
Qed.

Lemma session_form_invariant_witness :
  FText "0" ∉ multipart_parts "num_variations"
    (request Scenario.api POST "/api/v1/generate/campaign"
       {[ "Content-Type" := "multipart/form-data" ]}
       (Multipart (campaign_formData
          (state_after (session Scenario.api [Edit (EditNumVariations "0")]) initial)))).
Proof.
  refine (proj2 (proj1 (proj2 (proj2 (session_form_invariant Scenario.refusing
            Scenario.api [Edit (EditNumVariations "0")] None _))) _)).
  apply submitted_eq.
Defined.



(** X25: A submit always sends the create request first.  If the server
    rejects it, nothing else is sent and list and active campaign stay as
    they were; if it accepts, the new campaign becomes the active one and
    the list is loaded again: replaced by the server's list, or kept when
    that load fails. *)
Theorem submit_outcome (env : Env) (a : Axios) (s : State) :
  (∀ detail,
     respond_details env
       (request a POST "/api/v1/generate/campaign"
          {[ "Content-Type" := "multipart/form-data" ]}
          (Multipart (campaign_formData s))) = Err detail →
     requests_of (handleSubmit env a) s
       = [request a POST "/api/v1/generate/campaign"
            {[ "Content-Type" := "multipart/form-data" ]}
            (Multipart (campaign_formData s))]
     ∧ data (state_after (handleSubmit env a) s) = data s)
  ∧ (∀ created,
       respond_details env
         (request a POST "/api/v1/generate/campaign"
            {[ "Content-Type" := "multipart/form-data" ]}
            (Multipart (campaign_formData s))) = Ok created →
       requests_of (handleSubmit env a) s
         = [request a POST "/api/v1/generate/campaign"
              {[ "Content-Type" := "multipart/form-data" ]}
              (Multipart (campaign_formData s));
            request a GET "/api/v1/campaigns/" ∅ NoBody]
       ∧ activeCampaign (state_after (handleSubmit env a) s) = Some created
       ∧ (∀ list, respond_list env (request a GET "/api/v1/campaigns/" ∅ NoBody) = Ok list →
            campaigns (state_after (handleSubmit env a) s) = list)
       ∧ (∀ detail,
            respond_list env (request a GET "/api/v1/campaigns/" ∅ NoBody) = Err detail →
            campaigns (state_after (handleSubmit env a) s) = campaigns s)).
Proof.
  split.
  - intros detail Herr. unfold_handlers. simpl. by rewrite Herr.
  - intros created Hok. unfold_handlers. simpl. rewrite Hok. simpl.
    destruct (respond_list env _) eqn:Hlist; simpl;
      (split; [done|]); (split; [done|]); split; by intros ? [= <-].
Qed.

Lemma submit_outcome_witness :
  data (state_after (handleSubmit Scenario.refusing Scenario.api) Scenario.two_campaigns)
  = data Scenario.two_campaigns.
Proof.
  refine (proj2 (proj1 (submit_outcome Scenario.refusing Scenario.api
            Scenario.two_campaigns) None _)).
  reflexivity.
Defined.

(** X26: A rejected regeneration sends nothing more and leaves the whole state
    as it was.  An accepted one reloads the campaign it was asked for,
    which becomes the active campaign if that load succeeds and leaves the
    active campaign alone if it fails; the campaign list is not touched. *)
Theorem regenerate_outcome (env : Env) (a : Axios) (campaignId : Z) (platform : string)
    (v : option Z) (s : State) :
  (∀ detail,
     respond env (request a POST "/api/v1/assets/regenerate" ∅
                    (JsonBody (regenerate_body campaignId platform (default 0 v))))
       = Err detail →
     tail (requests_of (handleRegenerateImage env a campaignId platform v) s) = []
     ∧ state_after (handleRegenerateImage env a campaignId platform v) s = s)
  ∧ (respond env (request a POST "/api/v1/assets/regenerate" ∅
                    (JsonBody (regenerate_body campaignId platform (default 0 v))))
       = Ok tt →
     tail (requests_of (handleRegenerateImage env a campaignId platform v) s)
       = [request a GET ("/api/v1/campaigns/" +:+ Js.toString campaignId) ∅ NoBody]
     ∧ campaigns (state_after (handleRegenerateImage env a campaignId platform v) s)
       = campaigns s
     ∧ (∀ reloaded,
          respond_details env
            (request a GET ("/api/v1/campaigns/" +:+ Js.toString campaignId) ∅ NoBody)
            = Ok reloaded →
          activeCampaign (state_after (handleRegenerateImage env a campaignId platform v) s)
            = Some reloaded)
     ∧ (∀ detail,
          respond_details env
            (request a GET ("/api/v1/campaigns/" +:+ Js.toString campaignId) ∅ NoBody)
            = Err detail →
          activeCampaign (state_after (handleRegenerateImage env a campaignId platform v) s)
            = activeCampaign s)).
Proof.
  split.
  - intros detail Herr. unfold_handlers. simpl. rewrite Herr. simpl. by destruct s.
  - intros Hok. unfold_handlers. simpl. rewrite Hok. simpl.
    destruct (respond_details env _) eqn:Hd; simpl;
      (split; [done|]); (split; [done|]); split; by intros ? [= <-].
Qed.

Lemma regenerate_outcome_witness :
  state_after (handleRegenerateImage Scenario.refusing Scenario.api 7 "Instagram" None)
    Scenario.two_campaigns = Scenario.two_campaigns.
Proof.
  refine (proj2 (proj1 (regenerate_outcome Scenario.refusing Scenario.api 7 "Instagram"
            None Scenario.two_campaigns) None _)).
  reflexivity.
Defined.

End SessionProps.
